(** * SoroScan Python SDK: response decoding, error taxonomy, request building

    A shallow embedding of [soroscan/exceptions.py], [soroscan/models.py]
    and [soroscan/client.py].  Python values are an inductive type, dicts are
    finite maps, raising is a [result], and the order of transport calls is
    kept in an explicit log that the facade methods thread through. *)

From Stdlib Require Import ZArith SpecFloat Ascii.
From stdpp Require Import gmap strings list fin_maps pretty.

#[local] Set Warnings "-register-all".
#[local] Open Scope Z_scope.

(** ** Python values

    The values [json.loads] can produce, which are also the values that
    travel as query parameters and JSON request bodies. *)

Inductive py_value : Type :=
| PyNone
| PyBool (b : bool)
| PyInt (n : Z)
| PyFloat (f : spec_float)
| PyStr (s : string)
| PyList (l : list py_value)
| PyDict (d : gmap string py_value).

(** [bool(v)]: [None], [False], zero, and empty containers are falsy. *)
Definition truthy (v : py_value) : bool :=
  match v with
  | PyNone => false
  | PyBool b => b
  | PyInt n => negb (n =? 0)
  | PyFloat (S754_zero _) => false
  | PyFloat _ => true
  | PyStr s => negb (String.eqb s "")
  | PyList l => match l with [] => false | _ :: _ => true end
  | PyDict d => negb (bool_decide (d = ∅))
  end.

(** [bool(s)] for an argument annotated [str | None]. *)
Definition str_truthy (s : option string) : bool :=
  match s with
  | Some s => negb (String.eqb s "")
  | None => false
  end.

(** [a or b] on already evaluated operands. *)
Definition py_or (a b : py_value) : py_value :=
  if truthy a then a else b.

Definition is_dict (v : py_value) : Prop :=
  match v with PyDict _ => True | _ => False end.

(** ** exceptions.py *)

Module exceptions.

(** The classes deriving from [SoroScanAPIError], itself included. *)
Inductive api_error_class : Set :=
| SoroScanAPIError
| SoroScanAuthError
| SoroScanNotFoundError
| SoroScanRateLimitError
| SoroScanValidationError.

(** An instance: its class, [args[0]], and the two attributes. *)
Record api_error : Type := mk_api_error {
  cls : api_error_class;
  message : py_value;
  status_code : Z;
  response_data : py_value
}.

(** [SoroScanAPIError.__init__], inherited unchanged by the four
    subclasses; [response_data] defaults to [None]. *)
Definition __init__ (c : api_error_class) (message : py_value)
    (status_code : Z) (response_data : py_value) : api_error :=
  {| cls := c;
     message := message;
     status_code := status_code;
     response_data := py_or response_data (PyDict ∅) |}.

Definition __init__default (c : api_error_class) (message : py_value)
    (status_code : Z) : api_error :=
  __init__ c message status_code PyNone.

End exceptions.

(** ** Raising *)

Inductive exn : Type :=
| APIError (e : exceptions.api_error)
| JSONDecodeError
| AttributeError (attr : string)
| PydanticValidationError.

Inductive result (A : Type) : Type :=
| Return (a : A)
| Raise (e : exn).
Arguments Return {A} a.
Arguments Raise {A} e.

#[global] Instance result_ret : MRet result := @Return.
#[global] Instance result_bind : MBind result := λ A B f m,
  match m with
  | Return a => f a
  | Raise e => Raise e
  end.

(** [a or b] where evaluating either operand may raise; [b] is evaluated
    only when [a] is falsy. *)
Definition or_else (a b : result py_value) : result py_value :=
  x ← a; if truthy x then Return x else b.

(** [v.get(k)]: only dicts have the attribute. *)
Definition py_get (v : py_value) (k : string) : result py_value :=
  match v with
  | PyDict d => Return (default PyNone (d !! k))
  | _ => Raise (AttributeError "get")
  end.

(** ** models.py

    The classes are pydantic models: decoding looks each declared field up
    in the input dict, falls back on the declared default when the key is
    absent, and otherwise hands the value to the validator of the field's
    annotation.  Unknown keys are ignored. *)

(** The fields of a Python [datetime]. *)
Record datetime : Type := mk_datetime {
  year : Z; month : Z; day : Z;
  hour : Z; minute : Z; second : Z; microsecond : Z;
  utcoffset : option Z
}.

(** pydantic's validators for the scalar annotations used by the models.
    The conversions pydantic applies to inputs of another type are left
    open; an input that already has the annotated type is accepted as it
    is. *)
Class FieldValidators : Type := {
  validate_int : py_value → option Z;
  validate_str : py_value → option string;
  validate_bool : py_value → option bool;
  validate_datetime : py_value → option datetime;
  validate_int_ok : ∀ n, validate_int (PyInt n) = Some n;
  validate_str_ok : ∀ s, validate_str (PyStr s) = Some s;
  validate_bool_ok : ∀ b, validate_bool (PyBool b) = Some b
}.

(** Annotation [dict[str, Any]]. *)
Definition validate_dict (v : py_value) : option (gmap string py_value) :=
  match v with
  | PyDict d => Some d
  | _ => None
  end.

(** Annotation [T | None]. *)
Definition nullable {A} (validate : py_value → option A) (v : py_value)
    : option (option A) :=
  match v with
  | PyNone => Some None
  | _ => Some <$> validate v
  end.

(** Annotation [list[T]]. *)
Definition validate_list {A} (validate : py_value → option A) (v : py_value)
    : option (list A) :=
  match v with
  | PyList l => mapM validate l
  | _ => None
  end.

(** A [str] field declared with [max_length=n].  A string is taken one
    [ascii] per character, so that [String.length] is Python's [len]. *)
Definition max_length `{FieldValidators} (n : nat) (v : py_value) : option string :=
  s ← validate_str v;
  if bool_decide (String.length s ≤ n)%nat then Some s else None.

Definition from_validator {A} (o : option A) : result A :=
  match o with
  | Some a => Return a
  | None => Raise PydanticValidationError
  end.

(** A field declared without a default ([Field(...)] or a bare annotation). *)
Definition required {A} (validate : py_value → option A) (name : string)
    (data : gmap string py_value) : result A :=
  match data !! name with
  | Some v => from_validator (validate v)
  | None => Raise PydanticValidationError
  end.

(** A field declared with a default. *)
Definition with_default {A} (validate : py_value → option A) (name : string)
    (dflt : A) (data : gmap string py_value) : result A :=
  match data !! name with
  | Some v => from_validator (validate v)
  | None => Return dflt
  end.

(** The input of [model_validate] has to be a dict. *)
Definition as_dict (v : py_value) : result (gmap string py_value) :=
  from_validator (validate_dict v).

Module TrackedContract.
Record t : Type := mk {
  id : Z;
  contract_id : string;
  name : string;
  description : string;
  abi_schema : option (gmap string py_value);
  is_active : bool;
  last_indexed_ledger : option Z;
  event_count : Z;
  created_at : datetime;
  updated_at : datetime
}.

Definition model_validate `{FieldValidators} (obj : py_value) : result t :=
  data ← as_dict obj;
  id ← required validate_int "id" data;
  contract_id ← required validate_str "contract_id" data;
  name ← required validate_str "name" data;
  description ← with_default validate_str "description" "" data;
  abi_schema ← with_default (nullable validate_dict) "abi_schema" None data;
  is_active ← with_default validate_bool "is_active" true data;
  last_indexed_ledger ←
    with_default (nullable validate_int) "last_indexed_ledger" None data;
  event_count ← with_default validate_int "event_count" 0 data;
  created_at ← required validate_datetime "created_at" data;
  updated_at ← required validate_datetime "updated_at" data;
  Return (mk id contract_id name description abi_schema is_active
             last_indexed_ledger event_count created_at updated_at).
End TrackedContract.

Module ContractEvent.
Record t : Type := mk {
  id : Z;
  contract_id : string;
  contract_name : string;
  event_type : string;
  payload : gmap string py_value;
  payload_hash : string;
  ledger : Z;
  event_index : Z;
  timestamp : datetime;
  tx_hash : string;
  schema_version : option Z;
  validation_status : string
}.

Definition model_validate `{FieldValidators} (obj : py_value) : result t :=
  data ← as_dict obj;
  id ← required validate_int "id" data;
  contract_id ← required validate_str "contract_id" data;
  contract_name ← required validate_str "contract_name" data;
  event_type ← required validate_str "event_type" data;
  payload ← required validate_dict "payload" data;
  payload_hash ← required validate_str "payload_hash" data;
  ledger ← required validate_int "ledger" data;
  event_index ← with_default validate_int "event_index" 0 data;
  timestamp ← required validate_datetime "timestamp" data;
  tx_hash ← required validate_str "tx_hash" data;
  schema_version ← with_default (nullable validate_int) "schema_version" None data;
  validation_status ← with_default validate_str "validation_status" "passed" data;
  Return (mk id contract_id contract_name event_type payload payload_hash
             ledger event_index timestamp tx_hash schema_version
             validation_status).
End ContractEvent.

Module WebhookSubscription.
Record t : Type := mk {
  id : Z;
  contract : Z;
  contract_id : string;
  event_type : string;
  target_url : string;
  is_active : bool;
  created_at : datetime;
  last_triggered : option datetime;
  failure_count : Z
}.

Definition model_validate `{FieldValidators} (obj : py_value) : result t :=
  data ← as_dict obj;
  id ← required validate_int "id" data;
  contract ← required validate_int "contract" data;
  contract_id ← required validate_str "contract_id" data;
  event_type ← with_default validate_str "event_type" "" data;
  target_url ← required validate_str "target_url" data;
  is_active ← with_default validate_bool "is_active" true data;
  created_at ← required validate_datetime "created_at" data;
  last_triggered ←
    with_default (nullable validate_datetime) "last_triggered" None data;
  failure_count ← with_default validate_int "failure_count" 0 data;
  Return (mk id contract contract_id event_type target_url is_active
             created_at last_triggered failure_count).
End WebhookSubscription.

Module PaginatedResponse.
Record t (T : Type) : Type := mk {
  count : Z;
  next : option string;
  previous : option string;
  results : list T
}.
Arguments mk {T}.
Arguments count {T}.
Arguments next {T}.
Arguments previous {T}.
Arguments results {T}.

(** [TypeAdapter(PaginatedResponse[T]).validate_python], with the
    decoder of [T] passed in. *)
Definition validate_python `{FieldValidators} {T}
    (validate_T : py_value → result T) (obj : py_value) : result (t T) :=
  data ← as_dict obj;
  count ← required validate_int "count" data;
  next ← with_default (nullable validate_str) "next" None data;
  previous ← with_default (nullable validate_str) "previous" None data;
  items ← required (validate_list Some) "results" data;
  results ← mapM validate_T items;
  Return (mk count next previous results).
End PaginatedResponse.

Module RecordEventRequest.
Record t : Type := mk {
  contract_id : string;
  event_type : string;
  payload_hash : string
}.

Definition model_validate `{FieldValidators} (obj : py_value) : result t :=
  data ← as_dict obj;
  contract_id ← required (max_length 56) "contract_id" data;
  event_type ← required (max_length 100) "event_type" data;
  payload_hash ← required (max_length 64) "payload_hash" data;
  Return (mk contract_id event_type payload_hash).

(** [RecordEventRequest(contract_id=..., event_type=..., payload_hash=...)]:
    the keyword arguments are validated like a dict. *)
Definition new `{FieldValidators} (contract_id event_type payload_hash : string)
    : result t :=
  model_validate
    (PyDict (<["payload_hash" := PyStr payload_hash]>
            (<["event_type" := PyStr event_type]>
            (<["contract_id" := PyStr contract_id]> ∅)))).

Definition model_dump (r : t) : py_value :=
  PyDict (<["payload_hash" := PyStr (payload_hash r)]>
         (<["event_type" := PyStr (event_type r)]>
         (<["contract_id" := PyStr (contract_id r)]> ∅))).
End RecordEventRequest.

Module RecordEventResponse.
Record t : Type := mk {
  status : string;
  tx_hash : option string;
  transaction_status : option string;
  error : option string
}.

Definition model_validate `{FieldValidators} (obj : py_value) : result t :=
  data ← as_dict obj;
  status ← required validate_str "status" data;
  tx_hash ← with_default (nullable validate_str) "tx_hash" None data;
  transaction_status ←
    with_default (nullable validate_str) "transaction_status" None data;
  error ← with_default (nullable validate_str) "error" None data;
  Return (mk status tx_hash transaction_status error).
End RecordEventResponse.

Module ContractStats.
Record t : Type := mk {
  contract_id : string;
  name : string;
  total_events : Z;
  unique_event_types : Z;
  latest_ledger : option Z;
  last_activity : option datetime
}.

Definition model_validate `{FieldValidators} (obj : py_value) : result t :=
  data ← as_dict obj;
  contract_id ← required validate_str "contract_id" data;
  name ← required validate_str "name" data;
  total_events ← required validate_int "total_events" data;
  unique_event_types ← required validate_int "unique_event_types" data;
  latest_ledger ← with_default (nullable validate_int) "latest_ledger" None data;
  last_activity ←
    with_default (nullable validate_datetime) "last_activity" None data;
  Return (mk contract_id name total_events unique_event_types latest_ledger
             last_activity).
End ContractStats.

(** ** The transport *)

Module httpx.

Inductive http_method : Set := GET | POST | PATCH | DELETE.

(** What a facade method hands to [self._client.get/post/patch/delete]. *)
Record Request : Type := mkRequest {
  method : http_method;
  url : string;
  headers : gmap string string;
  params : option (gmap string py_value);
  json_body : option py_value
}.

(** What the client reads off an [httpx.Response]: [json] is the outcome
    of [response.json()], [None] when the content is not valid JSON. *)
Record Response : Type := mkResponse {
  status_code : Z;
  text : string;
  json : option py_value
}.

Definition json_ (r : Response) : result py_value :=
  match json r with
  | Some v => Return v
  | None => Raise JSONDecodeError
  end.

End httpx.

(** The collaborators outside the package: [urllib.parse.urljoin] and the
    server behind the HTTP client, which answers a request knowing the
    requests it has received before.  A call that httpx itself fails
    (timeout, refused connection) never reaches the code below and is not
    part of the embedding. *)
Class Transport : Type := {
  urljoin : string → string → string;
  send : list httpx.Request → httpx.Request → httpx.Response
}.

(** A facade method runs against the log of the requests transmitted so
    far, oldest first, and leaves the log extended by those it transmits. *)
Definition io (A : Type) : Type :=
  list httpx.Request → list httpx.Request * result A.

#[global] Instance io_ret : MRet io := λ A a log, (log, Return a).
#[global] Instance io_bind : MBind io := λ A B f m log,
  match m log with
  | (log', Return a) => f a log'
  | (log', Raise e) => (log', Raise e)
  end.

Definition lift {A} (r : result A) : io A := λ log, (log, r).

Definition perform `{Transport} (req : httpx.Request) : io httpx.Response :=
  λ log, (log ++ [req], Return (send log req)).

(** The requests a method transmits when started on an empty log. *)
Definition transmitted {A} (m : io A) : list httpx.Request := (m []).1.

(** [s.rstrip("/")] *)
Fixpoint rstrip_slash (s : string) : string :=
  match s with
  | EmptyString => EmptyString
  | String a s' =>
      match rstrip_slash s' with
      | EmptyString => if Ascii.eqb a "/"%char then EmptyString else String a EmptyString
      | r => String a r
      end
  end.

(** ** client.py, the blocking facade *)

Module SoroScanClient.
Import httpx.

Record t : Type := mk {
  base_url : string;
  api_key : option string;
  timeout : spec_float
}.

Definition __init__ (base_url : string) (api_key : option string)
    (timeout : spec_float) : t :=
  {| base_url := rstrip_slash base_url; api_key := api_key; timeout := timeout |}.

Definition _get_headers (self : t) : gmap string string :=
  let headers : gmap string string := {["Content-Type" := "application/json"]} in
  if str_truthy (api_key self) then
    <["Authorization" := "Bearer " +:+ default "" (api_key self)]> headers
  else headers.

Definition _handle_response (response : Response) : result py_value :=
  if (status_code response =? 200) || (status_code response =? 201) then
    json_ response
  else if status_code response =? 202 then
    json_ response
  else
    (* try: response.json()  except Exception: {} *)
    let error_data := default (PyDict ∅) (json response) in
    error_message ← or_else (py_get error_data "detail")
                      (or_else (py_get error_data "error")
                               (Return (PyStr (text response))));
    if status_code response =? 400 then
      Raise (APIError (exceptions.__init__ exceptions.SoroScanValidationError
               error_message (status_code response) error_data))
    else if (status_code response =? 401) || (status_code response =? 403) then
      Raise (APIError (exceptions.__init__ exceptions.SoroScanAuthError
               error_message (status_code response) error_data))
    else if status_code response =? 404 then
      Raise (APIError (exceptions.__init__ exceptions.SoroScanNotFoundError
               error_message (status_code response) error_data))
    else if status_code response =? 429 then
      Raise (APIError (exceptions.__init__ exceptions.SoroScanRateLimitError
               error_message (status_code response) error_data))
    else
      Raise (APIError (exceptions.__init__ exceptions.SoroScanAPIError
               error_message (status_code response) error_data)).

(** The [params] dict of [get_contracts]. *)
Definition get_contracts_params (is_active : option bool)
    (search : option string) (page page_size : Z) : gmap string py_value :=
  let params : gmap string py_value :=
    <["page_size" := PyInt page_size]> (<["page" := PyInt page]> ∅) in
  let params :=
    match is_active with
    | Some b => <["is_active" := PyBool b]> params
    | None => params
    end in
  if str_truthy search then <["search" := PyStr (default "" search)]> params
  else params.

Definition get_contracts `{FieldValidators, Transport} (self : t)
    (is_active : option bool) (search : option string) (page page_size : Z)
    : io (PaginatedResponse.t TrackedContract.t) :=
  let params := get_contracts_params is_active search page page_size in
  let url := urljoin (base_url self) "/api/contracts/" in
  response ← perform (mkRequest GET url (_get_headers self) (Some params) None);
  data ← lift (_handle_response response);
  lift (PaginatedResponse.validate_python TrackedContract.model_validate data).

Definition delete_contract `{Transport} (self : t) (contract_id : string)
    : io unit :=
  let url := urljoin (base_url self) ("/api/contracts/" +:+ contract_id +:+ "/") in
  response ← perform (mkRequest DELETE url (_get_headers self) None None);
  if negb (status_code response =? 204) then
    _ ← lift (_handle_response response); mret ()
  else mret ().

(** The [params] dict of [get_events]. *)
Definition get_events_params (contract_id event_type : option string)
    (ledger ledger_min ledger_max : option Z)
    (validation_status : option string) (ordering : string)
    (page page_size : Z) : gmap string py_value :=
  let params : gmap string py_value :=
    <["ordering" := PyStr ordering]>
      (<["page_size" := PyInt page_size]> (<["page" := PyInt page]> ∅)) in
  let params :=
    if str_truthy contract_id
    then <["contract__contract_id" := PyStr (default "" contract_id)]> params
    else params in
  let params :=
    if str_truthy event_type
    then <["event_type" := PyStr (default "" event_type)]> params
    else params in
  let params :=
    match ledger with
    | Some n => <["ledger" := PyInt n]> params
    | None => params
    end in
  let params :=
    match ledger_min with
    | Some n => <["ledger__gte" := PyInt n]> params
    | None => params
    end in
  let params :=
    match ledger_max with
    | Some n => <["ledger__lte" := PyInt n]> params
    | None => params
    end in
  if str_truthy validation_status
  then <["validation_status" := PyStr (default "" validation_status)]> params
  else params.

Definition get_events `{FieldValidators, Transport} (self : t)
    (contract_id event_type : option string)
    (ledger ledger_min ledger_max : option Z)
    (validation_status : option string) (ordering : string)
    (page page_size : Z) : io (PaginatedResponse.t ContractEvent.t) :=
  let params := get_events_params contract_id event_type ledger ledger_min
                  ledger_max validation_status ordering page page_size in
  let url := urljoin (base_url self) "/api/events/" in
  response ← perform (mkRequest GET url (_get_headers self) (Some params) None);
  data ← lift (_handle_response response);
  lift (PaginatedResponse.validate_python ContractEvent.model_validate data).

Definition record_event `{FieldValidators, Transport} (self : t)
    (contract_id event_type payload_hash : string) : io RecordEventResponse.t :=
  let url := urljoin (base_url self) "/api/record-event/" in
  request ← lift (RecordEventRequest.new contract_id event_type payload_hash);
  response ← perform (mkRequest POST url (_get_headers self) None
                        (Some (RecordEventRequest.model_dump request)));
  data ← lift (_handle_response response);
  lift (RecordEventResponse.model_validate data).

Definition delete_webhook `{Transport} (self : t) (webhook_id : Z) : io unit :=
  let url := urljoin (base_url self) ("/api/webhooks/" +:+ pretty webhook_id +:+ "/") in
  response ← perform (mkRequest DELETE url (_get_headers self) None None);
  if negb (status_code response =? 204) then
    _ ← lift (_handle_response response); mret ()
  else mret ().


Definition get_contract `{FieldValidators, Transport} (self : t)
    (contract_id : string) : io TrackedContract.t :=
  let url := urljoin (base_url self) ("/api/contracts/" +:+ contract_id +:+ "/") in
  response ← perform (mkRequest GET url (_get_headers self) None None);
  data ← lift (_handle_response response);
  lift (TrackedContract.model_validate data).

(** [bool(abi_schema)] for an argument annotated [dict | None]. *)
Definition dict_truthy (d : option (gmap string py_value)) : bool :=
  match d with
  | Some d => negb (bool_decide (d = ∅))
  | None => false
  end.

(** The JSON body of [create_contract]. *)
Definition create_contract_payload (contract_id name description : string)
    (abi_schema : option (gmap string py_value)) : gmap string py_value :=
  let payload : gmap string py_value :=
    <["description" := PyStr description]>
      (<["name" := PyStr name]> (<["contract_id" := PyStr contract_id]> ∅)) in
  if dict_truthy abi_schema
  then <["abi_schema" := PyDict (default ∅ abi_schema)]> payload
  else payload.

Definition create_contract `{FieldValidators, Transport} (self : t)
    (contract_id name description : string)
    (abi_schema : option (gmap string py_value)) : io TrackedContract.t :=
  let url := urljoin (base_url self) "/api/contracts/" in
  let payload := create_contract_payload contract_id name description abi_schema in
  response ← perform (mkRequest POST url (_get_headers self) None
                        (Some (PyDict payload)));
  data ← lift (_handle_response response);
  lift (TrackedContract.model_validate data).

(** The JSON body of [update_contract]. *)
Definition update_contract_payload (name description : option string)
    (is_active : option bool) : gmap string py_value :=
  let payload : gmap string py_value := ∅ in
  let payload :=
    match name with
    | Some s => <["name" := PyStr s]> payload
    | None => payload
    end in
  let payload :=
    match description with
    | Some s => <["description" := PyStr s]> payload
    | None => payload
    end in
  match is_active with
  | Some b => <["is_active" := PyBool b]> payload
  | None => payload
  end.

Definition update_contract `{FieldValidators, Transport} (self : t)
    (contract_id : string) (name description : option string)
    (is_active : option bool) : io TrackedContract.t :=
  let url := urljoin (base_url self) ("/api/contracts/" +:+ contract_id +:+ "/") in
  let payload := update_contract_payload name description is_active in
  response ← perform (mkRequest PATCH url (_get_headers self) None
                        (Some (PyDict payload)));
  data ← lift (_handle_response response);
  lift (TrackedContract.model_validate data).

Definition get_contract_stats `{FieldValidators, Transport} (self : t)
    (contract_id : string) : io ContractStats.t :=
  let url := urljoin (base_url self)
               ("/api/contracts/" +:+ contract_id +:+ "/stats/") in
  response ← perform (mkRequest GET url (_get_headers self) None None);
  data ← lift (_handle_response response);
  lift (ContractStats.model_validate data).

Definition get_event `{FieldValidators, Transport} (self : t) (event_id : Z)
    : io ContractEvent.t :=
  let url := urljoin (base_url self) ("/api/events/" +:+ pretty event_id +:+ "/") in
  response ← perform (mkRequest GET url (_get_headers self) None None);
  data ← lift (_handle_response response);
  lift (ContractEvent.model_validate data).

Definition get_webhooks `{FieldValidators, Transport} (self : t)
    (page page_size : Z) : io (PaginatedResponse.t WebhookSubscription.t) :=
  let params : gmap string py_value :=
    <["page_size" := PyInt page_size]> (<["page" := PyInt page]> ∅) in
  let url := urljoin (base_url self) "/api/webhooks/" in
  response ← perform (mkRequest GET url (_get_headers self) (Some params) None);
  data ← lift (_handle_response response);
  lift (PaginatedResponse.validate_python WebhookSubscription.model_validate data).

Definition get_webhook `{FieldValidators, Transport} (self : t) (webhook_id : Z)
    : io WebhookSubscription.t :=
  let url := urljoin (base_url self) ("/api/webhooks/" +:+ pretty webhook_id +:+ "/") in
  response ← perform (mkRequest GET url (_get_headers self) None None);
  data ← lift (_handle_response response);
  lift (WebhookSubscription.model_validate data).

(** The JSON body of [create_webhook]. *)
Definition create_webhook_payload (contract_id : Z) (target_url event_type : string)
    : gmap string py_value :=
  <["event_type" := PyStr event_type]>
    (<["target_url" := PyStr target_url]> (<["contract" := PyInt contract_id]> ∅)).

Definition create_webhook `{FieldValidators, Transport} (self : t)
    (contract_id : Z) (target_url event_type : string)
    : io WebhookSubscription.t :=
  let url := urljoin (base_url self) "/api/webhooks/" in
  let payload := create_webhook_payload contract_id target_url event_type in
  response ← perform (mkRequest POST url (_get_headers self) None
                        (Some (PyDict payload)));
  data ← lift (_handle_response response);
  lift (WebhookSubscription.model_validate data).

(** The JSON body of [update_webhook]. *)
Definition update_webhook_payload (target_url event_type : option string)
    (is_active : option bool) : gmap string py_value :=
  let payload : gmap string py_value := ∅ in
  let payload :=
    match target_url with
    | Some s => <["target_url" := PyStr s]> payload
    | None => payload
    end in
  let payload :=
    match event_type with
    | Some s => <["event_type" := PyStr s]> payload
    | None => payload
    end in
  match is_active with
  | Some b => <["is_active" := PyBool b]> payload
  | None => payload
  end.

Definition update_webhook `{FieldValidators, Transport} (self : t)
    (webhook_id : Z) (target_url event_type : option string)
    (is_active : option bool) : io WebhookSubscription.t :=
  let url := urljoin (base_url self) ("/api/webhooks/" +:+ pretty webhook_id +:+ "/") in
  let payload := update_webhook_payload target_url event_type is_active in
  response ← perform (mkRequest PATCH url (_get_headers self) None
                        (Some (PyDict payload)));
  data ← lift (_handle_response response);
  lift (WebhookSubscription.model_validate data).

Definition test_webhook `{Transport} (self : t) (webhook_id : Z) : io py_value :=
  let url := urljoin (base_url self)
               ("/api/webhooks/" +:+ pretty webhook_id +:+ "/test/") in
  response ← perform (mkRequest POST url (_get_headers self) None None);
  lift (_handle_response response).

End SoroScanClient.

(** ** client.py, the suspending facade

    [await] on the single transport call of a method hands control back
    to the scheduler until the response is there; within one call the
    steps run in the same order as in the blocking facade. *)

Module AsyncSoroScanClient.
Import httpx.

Record t : Type := mk {
  base_url : string;
  api_key : option string;
  timeout : spec_float
}.

Definition __init__ (base_url : string) (api_key : option string)
    (timeout : spec_float) : t :=
  {| base_url := rstrip_slash base_url; api_key := api_key; timeout := timeout |}.

Definition _get_headers (self : t) : gmap string string :=
  let headers : gmap string string := {["Content-Type" := "application/json"]} in
  if str_truthy (api_key self) then
    <["Authorization" := "Bearer " +:+ default "" (api_key self)]> headers
  else headers.

Definition _handle_response (response : Response) : result py_value :=
  if (status_code response =? 200) || (status_code response =? 201) then
    json_ response
  else if status_code response =? 202 then
    json_ response
  else
    (* try: response.json()  except Exception: {} *)
    let error_data := default (PyDict ∅) (json response) in
    error_message ← or_else (py_get error_data "detail")
                      (or_else (py_get error_data "error")
                               (Return (PyStr (text response))));
    if status_code response =? 400 then
      Raise (APIError (exceptions.__init__ exceptions.SoroScanValidationError
               error_message (status_code response) error_data))
    else if (status_code response =? 401) || (status_code response =? 403) then
      Raise (APIError (exceptions.__init__ exceptions.SoroScanAuthError
               error_message (status_code response) error_data))
    else if status_code response =? 404 then
      Raise (APIError (exceptions.__init__ exceptions.SoroScanNotFoundError
               error_message (status_code response) error_data))
    else if status_code response =? 429 then
      Raise (APIError (exceptions.__init__ exceptions.SoroScanRateLimitError
               error_message (status_code response) error_data))
    else
      Raise (APIError (exceptions.__init__ exceptions.SoroScanAPIError
               error_message (status_code response) error_data)).

(** The [params] dict of [get_contracts]. *)
Definition get_contracts_params (is_active : option bool)
    (search : option string) (page page_size : Z) : gmap string py_value :=
  let params : gmap string py_value :=
    <["page_size" := PyInt page_size]> (<["page" := PyInt page]> ∅) in
  let params :=
    match is_active with
    | Some b => <["is_active" := PyBool b]> params
    | None => params
    end in
  if str_truthy search then <["search" := PyStr (default "" search)]> params
  else params.

Definition get_contracts `{FieldValidators, Transport} (self : t)
    (is_active : option bool) (search : option string) (page page_size : Z)
    : io (PaginatedResponse.t TrackedContract.t) :=
  let params := get_contracts_params is_active search page page_size in
  let url := urljoin (base_url self) "/api/contracts/" in
  response ← (* await *) perform (mkRequest GET url (_get_headers self) (Some params) None);
  data ← lift (_handle_response response);
  lift (PaginatedResponse.validate_python TrackedContract.model_validate data).

Definition delete_contract `{Transport} (self : t) (contract_id : string)
    : io unit :=
  let url := urljoin (base_url self) ("/api/contracts/" +:+ contract_id +:+ "/") in
  response ← (* await *) perform (mkRequest DELETE url (_get_headers self) None None);
  if negb (status_code response =? 204) then
    _ ← lift (_handle_response response); mret ()
  else mret ().

(** The [params] dict of [get_events]. *)
Definition get_events_params (contract_id event_type : option string)
    (ledger ledger_min ledger_max : option Z)
    (validation_status : option string) (ordering : string)
    (page page_size : Z) : gmap string py_value :=
  let params : gmap string py_value :=
    <["ordering" := PyStr ordering]>
      (<["page_size" := PyInt page_size]> (<["page" := PyInt page]> ∅)) in
  let params :=
    if str_truthy contract_id
    then <["contract__contract_id" := PyStr (default "" contract_id)]> params
    else params in
  let params :=
    if str_truthy event_type
    then <["event_type" := PyStr (default "" event_type)]> params
    else params in
  let params :=
    match ledger with
    | Some n => <["ledger" := PyInt n]> params
    | None => params
    end in
  let params :=
    match ledger_min with
    | Some n => <["ledger__gte" := PyInt n]> params
    | None => params
    end in
  let params :=
    match ledger_max with
    | Some n => <["ledger__lte" := PyInt n]> params
    | None => params
    end in
  if str_truthy validation_status
  then <["validation_status" := PyStr (default "" validation_status)]> params
  else params.

Definition get_events `{FieldValidators, Transport} (self : t)
    (contract_id event_type : option string)
    (ledger ledger_min ledger_max : option Z)
    (validation_status : option string) (ordering : string)
    (page page_size : Z) : io (PaginatedResponse.t ContractEvent.t) :=
  let params := get_events_params contract_id event_type ledger ledger_min
                  ledger_max validation_status ordering page page_size in
  let url := urljoin (base_url self) "/api/events/" in
  response ← (* await *) perform (mkRequest GET url (_get_headers self) (Some params) None);
  data ← lift (_handle_response response);
  lift (PaginatedResponse.validate_python ContractEvent.model_validate data).

Definition record_event `{FieldValidators, Transport} (self : t)
    (contract_id event_type payload_hash : string) : io RecordEventResponse.t :=
  let url := urljoin (base_url self) "/api/record-event/" in
  request ← lift (RecordEventRequest.new contract_id event_type payload_hash);
  response ← (* await *) perform (mkRequest POST url (_get_headers self) None
                        (Some (RecordEventRequest.model_dump request)));
  data ← lift (_handle_response response);
  lift (RecordEventResponse.model_validate data).

Definition delete_webhook `{Transport} (self : t) (webhook_id : Z) : io unit :=
  let url := urljoin (base_url self) ("/api/webhooks/" +:+ pretty webhook_id +:+ "/") in
  response ← (* await *) perform (mkRequest DELETE url (_get_headers self) None None);
  if negb (status_code response =? 204) then
    _ ← lift (_handle_response response); mret ()
  else mret ().


Definition get_contract `{FieldValidators, Transport} (self : t)
    (contract_id : string) : io TrackedContract.t :=
  let url := urljoin (base_url self) ("/api/contracts/" +:+ contract_id +:+ "/") in
  response ← (* await *) perform (mkRequest GET url (_get_headers self) None None);
  data ← lift (_handle_response response);
  lift (TrackedContract.model_validate data).

(** [bool(abi_schema)] for an argument annotated [dict | None]. *)
Definition dict_truthy (d : option (gmap string py_value)) : bool :=
  match d with
  | Some d => negb (bool_decide (d = ∅))
  | None => false
  end.

(** The JSON body of [create_contract]. *)
Definition create_contract_payload (contract_id name description : string)
    (abi_schema : option (gmap string py_value)) : gmap string py_value :=
  let payload : gmap string py_value :=
    <["description" := PyStr description]>
      (<["name" := PyStr name]> (<["contract_id" := PyStr contract_id]> ∅)) in
  if dict_truthy abi_schema
  then <["abi_schema" := PyDict (default ∅ abi_schema)]> payload
  else payload.

Definition create_contract `{FieldValidators, Transport} (self : t)
    (contract_id name description : string)
    (abi_schema : option (gmap string py_value)) : io TrackedContract.t :=
  let url := urljoin (base_url self) "/api/contracts/" in
  let payload := create_contract_payload contract_id name description abi_schema in
  response ← (* await *) perform (mkRequest POST url (_get_headers self) None
                        (Some (PyDict payload)));
  data ← lift (_handle_response response);
  lift (TrackedContract.model_validate data).

(** The JSON body of [update_contract]. *)
Definition update_contract_payload (name description : option string)
    (is_active : option bool) : gmap string py_value :=
  let payload : gmap string py_value := ∅ in
  let payload :=
    match name with
    | Some s => <["name" := PyStr s]> payload
    | None => payload
    end in
  let payload :=
    match description with
    | Some s => <["description" := PyStr s]> payload
    | None => payload
    end in
  match is_active with
  | Some b => <["is_active" := PyBool b]> payload
  | None => payload
  end.

Definition update_contract `{FieldValidators, Transport} (self : t)
    (contract_id : string) (name description : option string)
    (is_active : option bool) : io TrackedContract.t :=
  let url := urljoin (base_url self) ("/api/contracts/" +:+ contract_id +:+ "/") in
  let payload := update_contract_payload name description is_active in
  response ← (* await *) perform (mkRequest PATCH url (_get_headers self) None
                        (Some (PyDict payload)));
  data ← lift (_handle_response response);
  lift (TrackedContract.model_validate data).

Definition get_contract_stats `{FieldValidators, Transport} (self : t)
    (contract_id : string) : io ContractStats.t :=
  let url := urljoin (base_url self)
               ("/api/contracts/" +:+ contract_id +:+ "/stats/") in
  response ← (* await *) perform (mkRequest GET url (_get_headers self) None None);
  data ← lift (_handle_response response);
  lift (ContractStats.model_validate data).

Definition get_event `{FieldValidators, Transport} (self : t) (event_id : Z)
    : io ContractEvent.t :=
  let url := urljoin (base_url self) ("/api/events/" +:+ pretty event_id +:+ "/") in
  response ← (* await *) perform (mkRequest GET url (_get_headers self) None None);
  data ← lift (_handle_response response);
  lift (ContractEvent.model_validate data).

Definition get_webhooks `{FieldValidators, Transport} (self : t)
    (page page_size : Z) : io (PaginatedResponse.t WebhookSubscription.t) :=
  let params : gmap string py_value :=
    <["page_size" := PyInt page_size]> (<["page" := PyInt page]> ∅) in
  let url := urljoin (base_url self) "/api/webhooks/" in
  response ← (* await *) perform (mkRequest GET url (_get_headers self) (Some params) None);
  data ← lift (_handle_response response);
  lift (PaginatedResponse.validate_python WebhookSubscription.model_validate data).

Definition get_webhook `{FieldValidators, Transport} (self : t) (webhook_id : Z)
    : io WebhookSubscription.t :=
  let url := urljoin (base_url self) ("/api/webhooks/" +:+ pretty webhook_id +:+ "/") in
  response ← (* await *) perform (mkRequest GET url (_get_headers self) None None);
  data ← lift (_handle_response response);
  lift (WebhookSubscription.model_validate data).

(** The JSON body of [create_webhook]. *)
Definition create_webhook_payload (contract_id : Z) (target_url event_type : string)
    : gmap string py_value :=
  <["event_type" := PyStr event_type]>
    (<["target_url" := PyStr target_url]> (<["contract" := PyInt contract_id]> ∅)).

Definition create_webhook `{FieldValidators, Transport} (self : t)
    (contract_id : Z) (target_url event_type : string)
    : io WebhookSubscription.t :=
  let url := urljoin (base_url self) "/api/webhooks/" in
  let payload := create_webhook_payload contract_id target_url event_type in
  response ← (* await *) perform (mkRequest POST url (_get_headers self) None
                        (Some (PyDict payload)));
  data ← lift (_handle_response response);
  lift (WebhookSubscription.model_validate data).

(** The JSON body of [update_webhook]. *)
Definition update_webhook_payload (target_url event_type : option string)
    (is_active : option bool) : gmap string py_value :=
  let payload : gmap string py_value := ∅ in
  let payload :=
    match target_url with
    | Some s => <["target_url" := PyStr s]> payload
    | None => payload
    end in
  let payload :=
    match event_type with
    | Some s => <["event_type" := PyStr s]> payload
    | None => payload
    end in
  match is_active with
  | Some b => <["is_active" := PyBool b]> payload
  | None => payload
  end.

Definition update_webhook `{FieldValidators, Transport} (self : t)
    (webhook_id : Z) (target_url event_type : option string)
    (is_active : option bool) : io WebhookSubscription.t :=
  let url := urljoin (base_url self) ("/api/webhooks/" +:+ pretty webhook_id +:+ "/") in
  let payload := update_webhook_payload target_url event_type is_active in
  response ← (* await *) perform (mkRequest PATCH url (_get_headers self) None
                        (Some (PyDict payload)));
  data ← lift (_handle_response response);
  lift (WebhookSubscription.model_validate data).

Definition test_webhook `{Transport} (self : t) (webhook_id : Z) : io py_value :=
  let url := urljoin (base_url self)
               ("/api/webhooks/" +:+ pretty webhook_id +:+ "/test/") in
  response ← (* await *) perform (mkRequest POST url (_get_headers self) None None);
  lift (_handle_response response).

End AsyncSoroScanClient.

(** ** An instance of the validators: strict decoding of JSON input

    Integers, strings and booleans are accepted only at their own type, and
    a timestamp only as a string of the form [YYYY-MM-DDTHH:MM:SSZ]. *)

Definition digit (a : ascii) : option Z :=
  let n := Z.of_N (N_of_ascii a) in
  if (48 <=? n) && (n <=? 57) then Some (n - 48) else None.

Fixpoint digits (acc : Z) (s : string) : option Z :=
  match s with
  | EmptyString => Some acc
  | String a s' => d ← digit a; digits (10 * acc + d) s'
  end.

Definition is_leap (y : Z) : bool :=
  ((y mod 4 =? 0) && negb (y mod 100 =? 0)) || (y mod 400 =? 0).

Definition days_in_month (y m : Z) : Z :=
  if m =? 2 then (if is_leap y then 29 else 28)
  else if (m =? 4) || (m =? 6) || (m =? 9) || (m =? 11) then 30
  else 31.

Definition parse_iso_utc (s : string) : option datetime :=
  if negb (String.length s =? 20)%nat then None else
  if negb (String.eqb (String.substring 4 1 s) "-" && String.eqb (String.substring 7 1 s) "-"
           && String.eqb (String.substring 10 1 s) "T" && String.eqb (String.substring 13 1 s) ":"
           && String.eqb (String.substring 16 1 s) ":" && String.eqb (String.substring 19 1 s) "Z")
  then None else
  y ← digits 0 (String.substring 0 4 s);
  mo ← digits 0 (String.substring 5 2 s);
  d ← digits 0 (String.substring 8 2 s);
  h ← digits 0 (String.substring 11 2 s);
  mi ← digits 0 (String.substring 14 2 s);
  se ← digits 0 (String.substring 17 2 s);
  if (1 <=? y) && (1 <=? mo) && (mo <=? 12) && (1 <=? d) && (d <=? days_in_month y mo)
     && (h <? 24) && (mi <? 60) && (se <? 60)
  then Some (mk_datetime y mo d h mi se 0 (Some 0))
  else None.

Definition strict_validators : FieldValidators := {|
  validate_int v := match v with PyInt n => Some n | _ => None end;
  validate_str v := match v with PyStr s => Some s | _ => None end;
  validate_bool v := match v with PyBool b => Some b | _ => None end;
  validate_datetime v := match v with PyStr s => parse_iso_utc s | _ => None end;
  validate_int_ok := λ _, eq_refl;
  validate_str_ok := λ _, eq_refl;
  validate_bool_ok := λ _, eq_refl
|}.

(** A transport for the examples: [urljoin] on a base without a path is
    concatenation, and the server answers every request with the same
    response. *)
Definition constant_server (r : httpx.Response) : Transport :=
  {| urljoin := String.append; send := λ _ _, r |}.

(** ** The status table of the error taxonomy, as the specification words it

    400 is a validation error, 401 and 403 are authentication errors, 404
    is not-found, 429 is rate-limit, and every other status that is not a
    success falls to the catch-all kind. *)
Definition taxonomy_table (status : Z) : exceptions.api_error_class :=
  if decide (status = 400) then exceptions.SoroScanValidationError
  else if decide (status = 401 ∨ status = 403) then exceptions.SoroScanAuthError
  else if decide (status = 404) then exceptions.SoroScanNotFoundError
  else if decide (status = 429) then exceptions.SoroScanRateLimitError
  else exceptions.SoroScanAPIError.

(** The statuses the decoder answers by returning. *)
Definition success_status (status : Z) : Prop :=
  status = 200 ∨ status = 201 ∨ status = 202.

#[global] Instance success_status_dec status : Decision (success_status status).
Proof. unfold success_status. apply _. Defined.

(** The value under [k], read the way [d.get(k)] reads it. *)
Definition dict_get (d : gmap string py_value) (k : string) : py_value :=
  default PyNone (d !! k).

(** The body of an error response as the decoder sees it: the parsed
    object, or the empty dict when parsing failed. *)
Definition error_body (r : httpx.Response) : option (gmap string py_value) :=
  match httpx.json r with
  | None => Some ∅
  | Some (PyDict d) => Some d
  | Some _ => None
  end.

(** A string argument that was given and is not the empty string. *)
Definition nonempty (s : option string) : option string :=
  s' ← s; if decide (s' = "") then None else Some s'.

(** Quoting for response texts that carry JSON. *)
Definition dq : string := String (ascii_of_nat 34) EmptyString.

(** ** Sample data of the test-suite ([tests/conftest.py], [tests/test_models.py]) *)

Definition sample_address : string :=
  "CCAAA111222333444555666777888999AAABBBCCCDDDEEEFFF".

Definition minimal_contract_data : gmap string py_value :=
  <["id" := PyInt 1]>
  (<["contract_id" := PyStr sample_address]>
  (<["name" := PyStr "Test"]>
  (<["created_at" := PyStr "2026-01-01T00:00:00Z"]>
  (<["updated_at" := PyStr "2026-01-01T00:00:00Z"]> ∅)))).

Definition minimal_webhook_data : gmap string py_value :=
  <["id" := PyInt 1]>
  (<["contract" := PyInt 1]>
  (<["contract_id" := PyStr sample_address]>
  (<["target_url" := PyStr "https://example.com/webhook"]>
  (<["created_at" := PyStr "2026-01-01T00:00:00Z"]> ∅)))).

Definition sample_event_data : gmap string py_value :=
  <["id" := PyInt 1]>
  (<["contract_id" := PyStr sample_address]>
  (<["contract_name" := PyStr "Test Token"]>
  (<["event_type" := PyStr "transfer"]>
  (<["payload" := PyDict (<["from" := PyStr "GAAA..."]>
                         (<["to" := PyStr "GBBB..."]>
                         (<["amount" := PyStr "1000"]> ∅)))]>
  (<["payload_hash" := PyStr "abc123def456"]>
  (<["ledger" := PyInt 100000]>
  (<["event_index" := PyInt 0]>
  (<["timestamp" := PyStr "2026-01-01T12:00:00Z"]>
  (<["tx_hash" := PyStr "tx123456"]>
  (<["schema_version" := PyInt 1]>
  (<["validation_status" := PyStr "passed"]> ∅))))))))))).

Definition test_client : SoroScanClient.t :=
  SoroScanClient.__init__ "https://api.test.soroscan.io"
    (Some "test-api-key-12345") (S754_finite false 15 2).

Definition accepted_response : httpx.Response :=
  httpx.mkResponse 202 "submitted"
    (Some (PyDict (<["status" := PyStr "submitted"]>
                  (<["tx_hash" := PyStr "tx123456"]> ∅)))).

(** ** Vocabulary for the properties of the facade methods *)

(** [n] slashes. *)
Fixpoint slashes (n : nat) : string :=
  match n with
  | O => EmptyString
  | S n => String "/"%char (slashes n)
  end.

(** The last character of a string, if it has one. *)
Fixpoint last_char (s : string) : option ascii :=
  match s with
  | EmptyString => None
  | String a EmptyString => Some a
  | String _ s' => last_char s'
  end.

(** A facade call that transmits the one request [req], whatever the
    answer, and whose outcome is read off that answer: it returns [a]
    exactly when the answer has a success status and a JSON body that
    [validate] turns into [a], and a taxonomy error it raises carries the
    status of the answer, which is then no success status. *)
Definition one_call `{Transport} {A} (m : io A) (req : httpx.Request)
    (validate : py_value → result A) : Prop :=
  ∀ log,
    (m log).1 = log ++ [req]
    ∧ (∀ a, (m log).2 = Return a ↔
            success_status (httpx.status_code (send log req))
            ∧ ∃ v, httpx.json (send log req) = Some v ∧ validate v = Return a)
    ∧ (∀ e, (m log).2 = Raise (APIError e) →
            exceptions.status_code e = httpx.status_code (send log req)
            ∧ ¬ success_status (httpx.status_code (send log req))).

(** Answers of the test-suite's mocked server. *)
Definition not_found_response : httpx.Response :=
  httpx.mkResponse 404
    ("{" +:+ dq +:+ "detail" +:+ dq +:+ ": " +:+ dq +:+ "Not found" +:+ dq +:+ "}")
    (Some (PyDict {["detail" := PyStr "Not found"]})).

Definition event_response : httpx.Response :=
  httpx.mkResponse 200 "" (Some (PyDict sample_event_data)).

Definition queued_response : httpx.Response :=
  httpx.mkResponse 200 ""
    (Some (PyDict {["status" := PyStr "test_webhook_queued"]})).

Definition contracts_page_data : gmap string py_value :=
  <["count" := PyInt 100]>
  (<["next" := PyStr "https://api.test.soroscan.io/api/events/?page=2"]>
  (<["previous" := PyNone]>
  (<["results" := PyList [PyDict minimal_contract_data]]> ∅))).

(** How a facade call can fail: it has transmitted its one request, and
    what it raises is read off the answer.  A taxonomy error or the
    failed [get] lookup means the status was no success status; the JSON
    error means a success status with a body that is not JSON; pydantic's
    error means a success status with a JSON body the model rejects. *)
Definition failure_modes `{Transport} {A} (m : io A) : Prop :=
  ∀ log ex, (m log).2 = Raise ex →
    ∃ req, (m log).1 = log ++ [req] ∧
      let answer := send log req in
      match ex with
      | APIError e =>
          ¬ success_status (httpx.status_code answer)
          ∧ exceptions.status_code e = httpx.status_code answer
      | AttributeError _ =>
          ¬ success_status (httpx.status_code answer)
          ∧ ∃ v, httpx.json answer = Some v ∧ ¬ is_dict v
      | JSONDecodeError =>
          success_status (httpx.status_code answer)
          ∧ httpx.json answer = None
      | PydanticValidationError =>
          success_status (httpx.status_code answer)
          ∧ is_Some (httpx.json answer)
      end.

(** * Properties *)

Section handle_response.
Import httpx SoroScanClient.

Lemma status_dispatch (sc : Z) (m d : py_value) :
  ¬ success_status sc →
  (if sc =? 400 then
     Raise (APIError (exceptions.__init__ exceptions.SoroScanValidationError m sc d))
   else if (sc =? 401) || (sc =? 403) then
     Raise (APIError (exceptions.__init__ exceptions.SoroScanAuthError m sc d))
   else if sc =? 404 then
     Raise (APIError (exceptions.__init__ exceptions.SoroScanNotFoundError m sc d))
   else if sc =? 429 then
     Raise (APIError (exceptions.__init__ exceptions.SoroScanRateLimitError m sc d))
   else
     Raise (APIError (exceptions.__init__ exceptions.SoroScanAPIError m sc d)))
  = (Raise (APIError (exceptions.__init__ (taxonomy_table sc) m sc d)) : result py_value).
Proof.
  intros _. unfold taxonomy_table.
  repeat case_decide; repeat (case_match; try lia); try reflexivity;
    exfalso; lia.
Qed.

Lemma not_success_tests (sc : Z) :
  ¬ success_status sc →
  (sc =? 200) || (sc =? 201) = false ∧ (sc =? 202) = false.
Proof. unfold success_status. intros Hs. split; lia. Qed.

(** On a success status the outcome is the outcome of [response.json()]. *)
Lemma handle_response_success (r : Response) :
  success_status (status_code r) → _handle_response r = json_ r.
Proof.
  unfold success_status, _handle_response. intros Hs.
  destruct (_ || _) eqn:E1; [reflexivity|].
  destruct (_ =? 202) eqn:E2; [reflexivity|]. lia.
Qed.

(** On any other status, with a body that is a JSON object or is not
    JSON at all, the decoder raises the error of the table. *)
Lemma handle_response_error (r : Response) (d : gmap string py_value) :
  ¬ success_status (status_code r) →
  error_body r = Some d →
  _handle_response r =
    Raise (APIError (exceptions.__init__ (taxonomy_table (status_code r))
             (py_or (dict_get d "detail")
                (py_or (dict_get d "error") (PyStr (text r))))
             (status_code r) (PyDict d))).
Proof.
  intros Hs Hb. unfold _handle_response.
  destruct (not_success_tests _ Hs) as [-> ->].
  assert (default (PyDict ∅) (json r) = PyDict d) as ->.
  { unfold error_body in Hb. destruct (json r) as [[]|]; simplify_eq/=; done. }
  cbn [py_get]. unfold or_else, py_or, dict_get. cbn [mbind result_bind].
  destruct (truthy (default PyNone (d !! "detail"))).
  - cbn. by apply status_dispatch.
  - cbn [mbind result_bind].
    destruct (truthy (default PyNone (d !! "error"))); cbn;
      by apply status_dispatch.
Qed.

(** On any other status, with a JSON body that is not an object, the
    lookup of [detail] fails and that failure is what the caller sees. *)
Lemma handle_response_not_object (r : Response) (v : py_value) :
  ¬ success_status (status_code r) →
  json r = Some v → ¬ is_dict v →
  _handle_response r = Raise (AttributeError "get").
Proof.
  intros Hs Hj Hv. unfold _handle_response.
  destruct (not_success_tests _ Hs) as [-> ->]. rewrite Hj. cbn [default].
  destruct v; try reflexivity. by destruct Hv.
Qed.

(** The decoder returns exactly on a success status with a JSON body. *)
Lemma handle_response_returns (r : Response) (v : py_value) :
  _handle_response r = Return v ↔
  success_status (status_code r) ∧ json r = Some v.
Proof.
  split.
  - intros H. destruct (decide (success_status (status_code r))) as [Hs|Hs].
    + rewrite handle_response_success in H by done. split; [done|].
      unfold json_ in H. by destruct (json r); simplify_eq.
    + destruct (error_body r) as [d|] eqn:Hb.
      * by rewrite (handle_response_error _ _ Hs Hb) in H.
      * unfold error_body in Hb. destruct (json r) as [v'|] eqn:Hj; [|done].
        rewrite (handle_response_not_object r v' Hs Hj) in H; [done|].
        destruct v'; simpl; first [discriminate | tauto].
  - intros [Hs Hj]. rewrite handle_response_success by done.
    unfold json_. by rewrite Hj.
Qed.

End handle_response.

Section status_table.
Import httpx SoroScanClient.

(** The six statuses of the table, on a body that is a JSON object or is
    not JSON: the class raised is the one listed and the error carries
    the status. *)
Lemma status_table_on_object_or_unparsable_body (r : Response)
    (d : gmap string py_value) :
  error_body r = Some d →
  status_code r ∈ [400; 401; 403; 404; 429; 500] →
  ∃ e, _handle_response r = Raise (APIError e)
       ∧ exceptions.status_code e = status_code r
       ∧ exceptions.cls e =
           match status_code r with
           | 400 => exceptions.SoroScanValidationError
           | 401 | 403 => exceptions.SoroScanAuthError
           | 404 => exceptions.SoroScanNotFoundError
           | 429 => exceptions.SoroScanRateLimitError
           | _ => exceptions.SoroScanAPIError
           end.
Proof.
  intros Hb Hin.
  assert (status_code r = 400 ∨ status_code r = 401 ∨ status_code r = 403
          ∨ status_code r = 404 ∨ status_code r = 429 ∨ status_code r = 500)
    as Hcases.
  { rewrite !elem_of_cons, elem_of_nil in Hin. tauto. }
  assert (¬ success_status (status_code r)) as Hs.
  { unfold success_status. lia. }
  eexists. split; [by apply handle_response_error|]. split; [done|].
  cbn [exceptions.cls exceptions.__init__].
  destruct Hcases as [Hc|[Hc|[Hc|[Hc|[Hc|Hc]]]]]; rewrite Hc; reflexivity.
Qed.

(** C1, at a 400 whose body is the JSON array
    [["Invalid contract address."]]: the decoder asks the list for its
    [get] attribute, and the caller sees that [AttributeError] where the
    table promises a [SoroScanValidationError] carrying status 400. *)
Example bad_request_with_array_body :
  _handle_response
    (mkResponse 400 ("[" +:+ dq +:+ "Invalid contract address." +:+ dq +:+ "]")
                (Some (PyList [PyStr "Invalid contract address."])))
  = Raise (AttributeError "get").
Proof. reflexivity. Qed.

(** C4, at a 503 whose body is the JSON string ["Service Unavailable"]:
    the status is not a success status, and what is raised is the
    [AttributeError] of [str.get], not an error of the taxonomy. *)
Example unavailable_with_string_body :
  let r := mkResponse 503 (dq +:+ "Service Unavailable" +:+ dq)
             (Some (PyStr "Service Unavailable")) in
  ¬ success_status (status_code r)
  ∧ _handle_response r = Raise (AttributeError "get")
  ∧ ∀ e, _handle_response r ≠ Raise (APIError e).
Proof.
  cbn. split; [unfold success_status; lia|]. split; [reflexivity|].
  intros e. discriminate.
Qed.

End status_table.

Section deletes.
Import httpx SoroScanClient.
Context `{Transport}.

(** A 204 answer to [delete_contract]: one DELETE is transmitted, the
    decoder is not consulted, and the method returns [None]. *)
Lemma delete_contract_204 (self : t) (contract_id : string)
    (log : list Request) :
  let req := mkRequest DELETE
               (urljoin (base_url self) ("/api/contracts/" +:+ contract_id +:+ "/"))
               (_get_headers self) None None in
  status_code (send log req) = 204 →
  delete_contract self contract_id log = (log ++ [req], Return ()).
Proof.
  intros req Hs. unfold delete_contract, perform, mbind, io_bind.
  fold req. rewrite Hs. reflexivity.
Qed.

Lemma delete_webhook_204 (self : t) (webhook_id : Z) (log : list Request) :
  let req := mkRequest DELETE
               (urljoin (base_url self) ("/api/webhooks/" +:+ pretty webhook_id +:+ "/"))
               (_get_headers self) None None in
  status_code (send log req) = 204 →
  delete_webhook self webhook_id log = (log ++ [req], Return ()).
Proof.
  intros req Hs. unfold delete_webhook, perform, mbind, io_bind.
  fold req. rewrite Hs. reflexivity.
Qed.

End deletes.

Section api_error.
Import exceptions.

(** [data or {}] is a dict whenever [data] is a dict or [None]. *)
Lemma or_empty_dict (data : py_value) :
  data = PyNone ∨ is_dict data → is_dict (py_or data (PyDict ∅)).
Proof.
  intros [->|Hd]; [done|]. destruct data; try by destruct Hd.
  unfold py_or. by case_match.
Qed.

(** C10: an error of any of the five classes, constructed with
    [response_data] a dict or [None] as the signature asks, has a dict
    in its [response_data] attribute; with [None], or with the argument
    left out, that dict is the empty one. *)
Theorem response_data_is_a_dict (c : api_error_class) (message : py_value)
    (status : Z) (data : py_value) :
  data = PyNone ∨ is_dict data →
  is_dict (response_data (__init__ c message status data))
  ∧ (data = PyNone →
     response_data (__init__ c message status data) = PyDict ∅)
  ∧ response_data (__init__default c message status) = PyDict ∅.
Proof.
  intros Hd. split; [by apply or_empty_dict|].
  split; [by intros ->|done].
Qed.

Lemma response_data_is_a_dict_witness :
  is_dict (response_data
             (__init__ SoroScanNotFoundError (PyStr "Not found") 404
                (PyDict {["detail" := PyStr "Not found"]})))
  ∧ response_data (__init__ SoroScanAuthError (PyStr "denied") 403 PyNone)
    = PyDict ∅.
Proof.
  split.
  - exact (proj1 (response_data_is_a_dict SoroScanNotFoundError
                    (PyStr "Not found") 404
                    (PyDict {["detail" := PyStr "Not found"]}) (or_intror I))).
  - exact (proj1 (proj2 (response_data_is_a_dict SoroScanAuthError
                           (PyStr "denied") 403 PyNone (or_introl eq_refl)))
             eq_refl).
Defined.

(** Every taxonomy error the decoder raises carries a dict. *)
Lemma raised_response_data_is_a_dict (r : httpx.Response) (e : api_error) :
  SoroScanClient._handle_response r = Raise (APIError e) →
  is_dict (response_data e).
Proof.
  intros H.
  destruct (decide (success_status (httpx.status_code r))) as [Hs|Hs].
  - rewrite handle_response_success in H by done.
    unfold httpx.json_ in H. by destruct (httpx.json r).
  - destruct (error_body r) as [d|] eqn:Hb.
    + rewrite (handle_response_error _ _ Hs Hb) in H. simplify_eq.
      apply (or_empty_dict (PyDict d)). by right.
    + unfold error_body in Hb. destruct (httpx.json r) as [v|] eqn:Hj; [|done].
      rewrite (handle_response_not_object r v Hs Hj) in H; [done|].
      destruct v; simpl; first [discriminate | tauto].
Qed.

End api_error.

Section headers.
Import SoroScanClient.

(** C7: the headers always carry [Content-Type: application/json]; they
    carry [Authorization] exactly when the client was given an API key,
    the empty string counting as none, and its value is then [Bearer]
    followed by the key. *)
Theorem get_headers_spec (self : t) :
  _get_headers self !! "Content-Type" = Some "application/json"
  ∧ (is_Some (_get_headers self !! "Authorization")
     ↔ ∃ key, api_key self = Some key ∧ key ≠ "")
  ∧ (∀ key, api_key self = Some key → key ≠ "" →
       _get_headers self !! "Authorization" = Some ("Bearer " +:+ key)).
Proof.
  unfold _get_headers. destruct (api_key self) as [key|]; cbn.
  - destruct (String.eqb_spec key "") as [->|Hne]; cbn.
    + split; [done|]. split.
      * split; [by intros [? ?]|]. intros (k & ? & ?). by simplify_eq.
      * intros k ? ?. by simplify_eq.
    + split; [done|]. split.
      * split; [by eauto|]. intros _. by eexists.
      * intros k ? _. by simplify_eq.
  - split; [done|]. split.
    + split; [by intros [? ?]|]. by intros (k & ? & ?).
    + by intros k ?.
Qed.

Lemma get_headers_spec_witness :
  _get_headers (__init__ "https://api.test.soroscan.io"
                  (Some "test-api-key-12345") (S754_finite false 15 2))
    !! "Authorization"
  = Some "Bearer test-api-key-12345".
Proof.
  apply (proj2 (proj2 (get_headers_spec
           (__init__ "https://api.test.soroscan.io"
              (Some "test-api-key-12345") (S754_finite false 15 2))))).
  - reflexivity.
  - discriminate.
Defined.

End headers.

Section messages.
Import httpx SoroScanClient.

(** C3, as worded, at a 404 whose body is
    [{"detail": "", "error": "No such contract"}]: the [detail] key is
    present, yet the message is the value of [error]. *)
Example empty_detail_is_skipped :
  let d : gmap string py_value :=
    <["error" := PyStr "No such contract"]> {["detail" := PyStr ""]} in
  let r := mkResponse 404
             ("{" +:+ dq +:+ "detail" +:+ dq +:+ ": " +:+ dq +:+ dq +:+ ", "
                  +:+ dq +:+ "error" +:+ dq +:+ ": "
                  +:+ dq +:+ "No such contract" +:+ dq +:+ "}")
             (Some (PyDict d)) in
  d !! "detail" = Some (PyStr "")
  ∧ ∃ e, _handle_response r = Raise (APIError e)
         ∧ exceptions.message e = PyStr "No such contract"
         ∧ exceptions.message e ≠ PyStr "".
Proof.
  split; [reflexivity|]. eexists. split; [reflexivity|]. split; [reflexivity|].
  discriminate.
Qed.

(** C3, amended: on a status that is not a success status, with a body
    that is a JSON object or is not JSON, the decoder raises the error of
    the table, carrying the status, whose message is the value under
    [detail] when that value is truthy, else the value under [error]
    when that value is truthy, else the raw text; when the body is not
    JSON the message is the raw text and [response_data] is the empty
    dict. *)
Theorem error_message_spec (r : Response) (d : gmap string py_value) :
  ¬ success_status (status_code r) →
  error_body r = Some d →
  ∃ e, _handle_response r = Raise (APIError e)
       ∧ exceptions.cls e = taxonomy_table (status_code r)
       ∧ exceptions.status_code e = status_code r
       ∧ (truthy (dict_get d "detail") = true →
          exceptions.message e = dict_get d "detail")
       ∧ (truthy (dict_get d "detail") = false →
          truthy (dict_get d "error") = true →
          exceptions.message e = dict_get d "error")
       ∧ (truthy (dict_get d "detail") = false →
          truthy (dict_get d "error") = false →
          exceptions.message e = PyStr (text r))
       ∧ (json r = None →
          exceptions.message e = PyStr (text r)
          ∧ exceptions.response_data e = PyDict ∅).
Proof.
  intros Hs Hb. eexists. split; [by apply handle_response_error|].
  cbn [exceptions.cls exceptions.status_code exceptions.message
       exceptions.response_data exceptions.__init__].
  split; [done|]. split; [done|]. unfold py_or.
  split; [by intros ->|]. split; [by intros -> ->|]. split; [by intros -> ->|].
  intros Hj. unfold error_body in Hb. rewrite Hj in Hb. by simplify_eq.
Qed.

Lemma error_message_spec_witness :
  ∃ e, _handle_response (mkResponse 404 "<html>Not Found</html>" None)
       = Raise (APIError e)
       ∧ exceptions.cls e = exceptions.SoroScanNotFoundError
       ∧ exceptions.status_code e = 404
       ∧ exceptions.message e = PyStr "<html>Not Found</html>"
       ∧ exceptions.response_data e = PyDict ∅.
Proof.
  destruct (error_message_spec (mkResponse 404 "<html>Not Found</html>" None) ∅)
    as (e & He & Hc & Hst & _ & _ & _ & Hraw).
  - unfold success_status. cbn. lia.
  - reflexivity.
  - exists e. destruct (Hraw eq_refl) as [Hm Hd]. by repeat split.
Defined.

End messages.

Section variants.

(** C9: the two facades decode every response alike, build the same
    headers for the same configuration, and run each of their methods
    to the same transmitted requests and the same outcome. *)
Theorem blocking_and_suspending_agree :
  (∀ r, SoroScanClient._handle_response r
        = AsyncSoroScanClient._handle_response r)
  ∧ (∀ url key tmo,
       SoroScanClient._get_headers (SoroScanClient.__init__ url key tmo)
       = AsyncSoroScanClient._get_headers (AsyncSoroScanClient.__init__ url key tmo))
  ∧ (∀ (V : FieldValidators) (T : Transport) url key tmo log,
       (∀ is_active search page page_size,
          SoroScanClient.get_contracts (SoroScanClient.__init__ url key tmo)
            is_active search page page_size log
          = AsyncSoroScanClient.get_contracts
              (AsyncSoroScanClient.__init__ url key tmo)
              is_active search page page_size log)
       ∧ (∀ contract_id event_type ledger ledger_min ledger_max
            validation_status ordering page page_size,
            SoroScanClient.get_events (SoroScanClient.__init__ url key tmo)
              contract_id event_type ledger ledger_min ledger_max
              validation_status ordering page page_size log
            = AsyncSoroScanClient.get_events
                (AsyncSoroScanClient.__init__ url key tmo)
                contract_id event_type ledger ledger_min ledger_max
                validation_status ordering page page_size log)
       ∧ (∀ contract_id event_type payload_hash,
            SoroScanClient.record_event (SoroScanClient.__init__ url key tmo)
              contract_id event_type payload_hash log
            = AsyncSoroScanClient.record_event
                (AsyncSoroScanClient.__init__ url key tmo)
                contract_id event_type payload_hash log)
       ∧ (∀ contract_id,
            SoroScanClient.delete_contract (SoroScanClient.__init__ url key tmo)
              contract_id log
            = AsyncSoroScanClient.delete_contract
                (AsyncSoroScanClient.__init__ url key tmo) contract_id log)
       ∧ (∀ webhook_id,
            SoroScanClient.delete_webhook (SoroScanClient.__init__ url key tmo)
              webhook_id log
            = AsyncSoroScanClient.delete_webhook
                (AsyncSoroScanClient.__init__ url key tmo) webhook_id log)).
Proof.
  split; [reflexivity|]. split; [reflexivity|].
  intros V T url key tmo log. repeat split; intros; reflexivity.
Qed.

End variants.

Section query_parameters.
Import SoroScanClient.

Lemma str_truthy_nonempty (s : option string) :
  (if str_truthy s then Some (PyStr (default "" s)) else None)
  = PyStr <$> nonempty s.
Proof.
  destruct s as [s|]; [|done]. cbn. unfold nonempty. cbn.
  destruct (String.eqb_spec s "") as [->|Hne]; [done|]. cbn.
  by rewrite decide_False.
Qed.

(** Reading a key through an insertion that is made under a guard. *)
Lemma lookup_guarded_insert_ne (b : bool) (k k' : string) (v : py_value)
    (m : gmap string py_value) :
  k ≠ k' → (if b then <[k:=v]> m else m) !! k' = m !! k'.
Proof. intros. destruct b; [by rewrite lookup_insert_ne|done]. Qed.

Lemma lookup_guarded_insert_eq (b : bool) (k : string) (v : py_value)
    (m : gmap string py_value) :
  (if b then <[k:=v]> m else m) !! k = if b then Some v else m !! k.
Proof. destruct b; [by rewrite lookup_insert_eq|done]. Qed.

Lemma lookup_optional_insert_ne {A} (o : option A) (f : A → py_value)
    (k k' : string) (m : gmap string py_value) :
  k ≠ k' → match o with Some a => <[k:=f a]> m | None => m end !! k' = m !! k'.
Proof. intros. destruct o; [by rewrite lookup_insert_ne|done]. Qed.

Lemma lookup_optional_insert_eq {A} (o : option A) (f : A → py_value)
    (k : string) (m : gmap string py_value) :
  match o with Some a => <[k:=f a]> m | None => m end !! k
  = match o with Some a => Some (f a) | None => m !! k end.
Proof. destruct o; [by rewrite lookup_insert_eq|done]. Qed.

Ltac peel_params :=
  repeat first
    [ rewrite lookup_guarded_insert_ne by discriminate
    | rewrite lookup_optional_insert_ne by discriminate
    | rewrite lookup_insert_ne by discriminate
    | rewrite lookup_guarded_insert_eq
    | rewrite lookup_optional_insert_eq
    | rewrite lookup_empty ].

(** C2, as worded, at [get_events(contract_id="")] and at
    [get_contracts(search="")]: the filter is given, its value is the
    empty string, and its key is not among the query parameters. *)
Example empty_string_filter_is_dropped :
  get_events_params (Some "") None None None None None "-timestamp" 1 50
    !! "contract__contract_id" = None
  ∧ get_contracts_params None (Some "") 1 50 !! "search" = None.
Proof. split; reflexivity. Qed.

(** C2, amended: in the query parameters of [get_events] and
    [get_contracts] a filter that was not given is not a key; an integer
    or boolean filter that was given is a key with the given value,
    zero and false included; a string filter is a key, with the given
    value, exactly when it was given and is not the empty string. *)
Theorem filter_parameters_spec
    (contract_id event_type : option string)
    (ledger ledger_min ledger_max : option Z)
    (validation_status : option string) (ordering : string)
    (is_active : option bool) (search : option string) (page page_size : Z) :
  let p := get_events_params contract_id event_type ledger ledger_min
             ledger_max validation_status ordering page page_size in
  let q := get_contracts_params is_active search page page_size in
  p !! "contract__contract_id" = PyStr <$> nonempty contract_id
  ∧ p !! "event_type" = PyStr <$> nonempty event_type
  ∧ p !! "ledger" = PyInt <$> ledger
  ∧ p !! "ledger__gte" = PyInt <$> ledger_min
  ∧ p !! "ledger__lte" = PyInt <$> ledger_max
  ∧ p !! "validation_status" = PyStr <$> nonempty validation_status
  ∧ q !! "is_active" = PyBool <$> is_active
  ∧ q !! "search" = PyStr <$> nonempty search.
Proof.
  intros p q. subst p q. unfold get_events_params, get_contracts_params.
  rewrite <- !str_truthy_nonempty.
  cbv zeta. repeat split; peel_params; by repeat case_match.
Qed.

(** The parameters are the ones the methods transmit. *)
Lemma get_events_transmits `{FieldValidators, Transport} (self : t)
    contract_id event_type ledger ledger_min ledger_max validation_status
    ordering page page_size :
  transmitted (get_events self contract_id event_type ledger ledger_min
                 ledger_max validation_status ordering page page_size)
  = [httpx.mkRequest httpx.GET (urljoin (base_url self) "/api/events/")
       (_get_headers self)
       (Some (get_events_params contract_id event_type ledger ledger_min
                ledger_max validation_status ordering page page_size))
       None].
Proof.
  unfold transmitted, get_events, perform, lift, mbind, io_bind. cbn.
  by repeat case_match; simplify_eq/=.
Qed.

Lemma get_contracts_transmits `{FieldValidators, Transport} (self : t)
    is_active search page page_size :
  transmitted (get_contracts self is_active search page page_size)
  = [httpx.mkRequest httpx.GET (urljoin (base_url self) "/api/contracts/")
       (_get_headers self)
       (Some (get_contracts_params is_active search page page_size)) None].
Proof.
  unfold transmitted, get_contracts, perform, lift, mbind, io_bind. cbn.
  by repeat case_match; simplify_eq/=.
Qed.

End query_parameters.

Section decoding.
Context `{FieldValidators}.

Lemma bind_Return {A B} (m : result A) (f : A → result B) (b : B) :
  m ≫= f = Return b → ∃ a, m = Return a ∧ f a = Return b.
Proof. destruct m as [a|e]; [by exists a|done]. Qed.

Lemma with_default_absent {A} (validate : py_value → option A) (k : string)
    (dflt a : A) (data : gmap string py_value) :
  data !! k = None → with_default validate k dflt data = Return a → a = dflt.
Proof. unfold with_default. intros ->. congruence. Qed.

Lemma with_default_str (k : string) (dflt a s : string)
    (data : gmap string py_value) :
  data !! k = Some (PyStr s) →
  with_default validate_str k dflt data = Return a → a = s.
Proof.
  unfold with_default. intros ->. rewrite validate_str_ok. cbn. congruence.
Qed.

Lemma required_insert_ne {A} (validate : py_value → option A) (k k' : string)
    (v : py_value) (data : gmap string py_value) :
  k ≠ k' → required validate k' (<[k:=v]> data) = required validate k' data.
Proof. intros. unfold required. by rewrite lookup_insert_ne. Qed.

Lemma with_default_insert_ne {A} (validate : py_value → option A)
    (k k' : string) (v : py_value) (dflt : A) (data : gmap string py_value) :
  k ≠ k' →
  with_default validate k' dflt (<[k:=v]> data)
  = with_default validate k' dflt data.
Proof. intros. unfold with_default. by rewrite lookup_insert_ne. Qed.

Ltac decode_steps Hdec :=
  cbn [as_dict validate_dict from_validator mbind result_bind] in Hdec;
  repeat (apply bind_Return in Hdec as (? & ? & Hdec));
  injection Hdec as <-.

(** C5: whenever a dict decodes as a [TrackedContract] or as a
    [WebhookSubscription], each of the fields [description],
    [is_active], [event_count], [event_type], [failure_count] whose key
    the dict lacks holds its declared default: the empty string, true,
    0, the empty string, 0. *)
Theorem absent_fields_take_defaults (data : gmap string py_value) :
  (∀ c, TrackedContract.model_validate (PyDict data) = Return c →
     (data !! "description" = None → TrackedContract.description c = "")
     ∧ (data !! "is_active" = None → TrackedContract.is_active c = true)
     ∧ (data !! "event_count" = None → TrackedContract.event_count c = 0))
  ∧ (∀ w, WebhookSubscription.model_validate (PyDict data) = Return w →
       (data !! "event_type" = None → WebhookSubscription.event_type w = "")
       ∧ (data !! "is_active" = None → WebhookSubscription.is_active w = true)
       ∧ (data !! "failure_count" = None →
          WebhookSubscription.failure_count w = 0)).
Proof.
  split.
  - intros c Hdec. unfold TrackedContract.model_validate in Hdec.
    decode_steps Hdec. cbn.
    repeat split; intros Habs; eauto using with_default_absent.
  - intros w Hdec. unfold WebhookSubscription.model_validate in Hdec.
    decode_steps Hdec. cbn.
    repeat split; intros Habs; eauto using with_default_absent.
Qed.

(** C8, amended: the [validation_status] of a decoded [ContractEvent] is
    a string without further restriction: it is ["passed"] when the key
    is absent, it is the input's string when the input carries one, and
    an input that decodes still decodes, to that status, when its
    [validation_status] is replaced by any string at all. *)
Theorem validation_status_is_any_string (data : gmap string py_value)
    (e : ContractEvent.t) :
  ContractEvent.model_validate (PyDict data) = Return e →
  (data !! "validation_status" = None →
   ContractEvent.validation_status e = "passed")
  ∧ (∀ s, data !! "validation_status" = Some (PyStr s) →
          ContractEvent.validation_status e = s)
  ∧ (∀ s, ∃ e',
       ContractEvent.model_validate
         (PyDict (<["validation_status" := PyStr s]> data)) = Return e'
       ∧ ContractEvent.validation_status e' = s).
Proof.
  intros Hdec. unfold ContractEvent.model_validate in Hdec.
  decode_steps Hdec. cbn.
  split; [eauto using with_default_absent|].
  split; [eauto using with_default_str|].
  intros s. eexists. unfold ContractEvent.model_validate.
  cbn [as_dict validate_dict from_validator mbind result_bind].
  rewrite !required_insert_ne by discriminate.
  rewrite (with_default_insert_ne _ _ "event_index"),
    (with_default_insert_ne _ _ "schema_version") by discriminate.
  repeat match goal with
         | Hstep : ?m = Return _ |- context [?m] => rewrite Hstep
         end.
  cbn [mbind result_bind]. unfold with_default at 1.
  rewrite lookup_insert_eq, validate_str_ok. cbn. split; reflexivity.
Qed.

End decoding.

Section decoding_examples.

Lemma absent_fields_take_defaults_witness :
  (∃ c, TrackedContract.model_validate (H:=strict_validators)
          (PyDict minimal_contract_data) = Return c
        ∧ TrackedContract.description c = ""
        ∧ TrackedContract.is_active c = true
        ∧ TrackedContract.event_count c = 0)
  ∧ (∃ w, WebhookSubscription.model_validate (H:=strict_validators)
            (PyDict minimal_webhook_data) = Return w
          ∧ WebhookSubscription.event_type w = ""
          ∧ WebhookSubscription.is_active w = true
          ∧ WebhookSubscription.failure_count w = 0).
Proof.
  split.
  - eexists.
    assert (TrackedContract.model_validate (H:=strict_validators)
              (PyDict minimal_contract_data) = Return _) as Hdec
      by (vm_compute; reflexivity).
    destruct (proj1 (absent_fields_take_defaults (H:=strict_validators)
                       minimal_contract_data) _ Hdec) as (Hd & Ha & Hc).
    split; [exact Hdec|].
    split; [apply Hd|split; [apply Ha|apply Hc]]; reflexivity.
  - eexists.
    assert (WebhookSubscription.model_validate (H:=strict_validators)
              (PyDict minimal_webhook_data) = Return _) as Hdec
      by (vm_compute; reflexivity).
    destruct (proj2 (absent_fields_take_defaults (H:=strict_validators)
                       minimal_webhook_data) _ Hdec) as (He & Ha & Hf).
    split; [exact Hdec|].
    split; [apply He|split; [apply Ha|apply Hf]]; reflexivity.
Defined.

(** C8, as worded, at the sample event of the test-suite with its
    [validation_status] set to ["pending"]: the input decodes, and the
    decoded status is neither ["passed"] nor ["failed"]. *)
Example pending_status_is_accepted :
  ∃ e, ContractEvent.model_validate (H:=strict_validators)
         (PyDict (<["validation_status" := PyStr "pending"]> sample_event_data))
       = Return e
       ∧ ¬ (ContractEvent.validation_status e = "passed"
            ∨ ContractEvent.validation_status e = "failed").
Proof.
  eexists. split; [vm_compute; reflexivity|]. cbn. intros [?|?]; discriminate.
Qed.

Lemma validation_status_is_any_string_witness :
  ∃ e e',
    ContractEvent.model_validate (H:=strict_validators)
      (PyDict sample_event_data) = Return e
    ∧ ContractEvent.validation_status e = "passed"
    ∧ ContractEvent.model_validate (H:=strict_validators)
        (PyDict (<["validation_status" := PyStr "quarantined"]>
                   sample_event_data)) = Return e'
    ∧ ContractEvent.validation_status e' = "quarantined".
Proof.
  eexists.
  assert (ContractEvent.model_validate (H:=strict_validators)
            (PyDict sample_event_data) = Return _) as Hdec
    by (vm_compute; reflexivity).
  destruct (validation_status_is_any_string (H:=strict_validators)
              sample_event_data _ Hdec) as (_ & Hkept & Hany).
  destruct (Hany "quarantined") as (e' & Hdec' & Hst).
  exists e'. split; [exact Hdec|]. split; [|by split].
  apply Hkept. reflexivity.
Defined.

End decoding_examples.

Section record_event.
Import httpx SoroScanClient.
Context `{FieldValidators, Transport}.

(** Constructing the request model succeeds exactly within the three
    ceilings. *)
Lemma RecordEventRequest_new (contract_id event_type payload_hash : string) :
  (RecordEventRequest.new contract_id event_type payload_hash)
  = if bool_decide (String.length contract_id ≤ 56)%nat
         && bool_decide (String.length event_type ≤ 100)%nat
         && bool_decide (String.length payload_hash ≤ 64)%nat
    then Return (RecordEventRequest.mk contract_id event_type payload_hash)
    else Raise PydanticValidationError.
Proof.
  unfold RecordEventRequest.new, RecordEventRequest.model_validate, required.
  cbn [as_dict validate_dict from_validator mbind result_bind].
  rewrite lookup_insert_eq.
  rewrite !(lookup_insert_ne _ "payload_hash") by discriminate.
  rewrite lookup_insert_eq.
  rewrite !(lookup_insert_ne _ "event_type") by discriminate.
  rewrite lookup_insert_eq.
  unfold max_length. rewrite !validate_str_ok. cbn [mbind option_bind].
  destruct (bool_decide (String.length contract_id ≤ 56)%nat); [|reflexivity].
  destruct (bool_decide (String.length event_type ≤ 100)%nat); [|reflexivity].
  destruct (bool_decide (String.length payload_hash ≤ 64)%nat); reflexivity.
Qed.

(** C6: [record_event] builds and validates the request model before it
    touches the transport.  With an argument above its ceiling (56, 100,
    64 characters) it raises the validation error and the log of
    transmitted requests is left as it was; with all three within their
    ceilings it transmits one POST to [/api/record-event/] whose JSON
    body holds the three arguments, and continues with the answer. *)
Theorem record_event_checks_lengths (self : t)
    (contract_id event_type payload_hash : string) (log : list Request) :
  ((56 < String.length contract_id ∨ 100 < String.length event_type
    ∨ 64 < String.length payload_hash)%nat →
   record_event self contract_id event_type payload_hash log
   = (log, Raise PydanticValidationError))
  ∧ ((String.length contract_id ≤ 56 ∧ String.length event_type ≤ 100
      ∧ String.length payload_hash ≤ 64)%nat →
     let req :=
       mkRequest POST (urljoin (base_url self) "/api/record-event/")
         (_get_headers self) None
         (Some (PyDict (<["payload_hash" := PyStr payload_hash]>
                       (<["event_type" := PyStr event_type]>
                       (<["contract_id" := PyStr contract_id]> ∅))))) in
     record_event self contract_id event_type payload_hash log
     = (log ++ [req],
        _handle_response (send log req) ≫= RecordEventResponse.model_validate)).
Proof.
  unfold record_event, perform, lift, mbind at 1 2 3, io_bind.
  rewrite RecordEventRequest_new. split.
  - intros Hlong.
    repeat (case_bool_decide; cbn [andb]; [|reflexivity]). lia.
  - intros (Hc & He & Hp).
    rewrite !bool_decide_eq_true_2 by done.
    unfold mbind, io_bind, result_bind. cbn.
    by destruct (_handle_response _).
Qed.

End record_event.

Section record_event_examples.
Import httpx SoroScanClient.

Lemma record_event_checks_lengths_witness :
  let T := constant_server accepted_response in
  let V := strict_validators in
  let too_long := sample_address +:+ "0123456" in
  record_event test_client too_long "transfer" "abc123def456" []
    = ([], Raise PydanticValidationError)
  ∧ ∃ req, record_event test_client sample_address "transfer" "abc123def456" []
           = ([req],
              Return (RecordEventResponse.mk "submitted" (Some "tx123456")
                        None None))
           ∧ method req = POST
           ∧ url req = "https://api.test.soroscan.io/api/record-event/".
Proof.
  intros T V too_long.
  destruct (record_event_checks_lengths (H:=V) (H0:=T) test_client
              too_long "transfer" "abc123def456" []) as [Hlong _].
  destruct (record_event_checks_lengths (H:=V) (H0:=T) test_client
              sample_address "transfer" "abc123def456" []) as [_ Hfit].
  split.
  - apply Hlong. left. vm_compute. lia.
  - eexists. split.
    + etransitivity; [apply Hfit; vm_compute; lia|]. reflexivity.
    + split; reflexivity.
Defined.

End record_event_examples.


(** * Further properties of the decoder *)

Section decoder.
Import httpx SoroScanClient.

(** The decoder, case by case. *)
Lemma handle_response_cases (r : Response) :
  _handle_response r =
    if decide (success_status (status_code r)) then
      match json r with
      | Some v => Return v
      | None => Raise JSONDecodeError
      end
    else
      match json r with
      | None =>
          Raise (APIError (exceptions.mk_api_error
                   (taxonomy_table (status_code r)) (PyStr (text r))
                   (status_code r) (PyDict ∅)))
      | Some (PyDict d) =>
          Raise (APIError (exceptions.mk_api_error
                   (taxonomy_table (status_code r))
                   (py_or (dict_get d "detail")
                      (py_or (dict_get d "error") (PyStr (text r))))
                   (status_code r) (PyDict d)))
      | Some _ => Raise (AttributeError "get")
      end.
Proof.
  case_decide as Hs.
  - by rewrite handle_response_success.
  - destruct (json r) as [v|] eqn:Hj.
    + destruct v;
        try (apply (handle_response_not_object r _ Hs Hj); by intros []).
      rewrite (handle_response_error r d Hs); [|unfold error_body; by rewrite Hj].
      unfold exceptions.__init__. do 3 f_equal.
      unfold py_or at 1. cbn [truthy]. by case_bool_decide; simplify_eq/=.
    + rewrite (handle_response_error r ∅ Hs); [|unfold error_body; by rewrite Hj].
      reflexivity.
Qed.

(** X1: the decoder has four outcomes, fixed by the status and by what
    [response.json()] gives.  On 200, 201, 202 it returns the parsed body,
    or lets the JSON error through when the body does not parse.  On any
    other status it raises the error of the status table: with the raw
    text as message and an empty [response_data] when the body does not
    parse, with the message picked from [detail], [error], raw text when
    the body is an object; a parsed body that is not an object ends in
    the [AttributeError] of the [get] lookup. *)
Theorem decoder_outcomes (r : Response) :
  _handle_response r =
    if decide (success_status (status_code r)) then
      match json r with
      | Some v => Return v
      | None => Raise JSONDecodeError
      end
    else
      match json r with
      | None =>
          Raise (APIError (exceptions.mk_api_error
                   (taxonomy_table (status_code r)) (PyStr (text r))
                   (status_code r) (PyDict ∅)))
      | Some (PyDict d) =>
          Raise (APIError (exceptions.mk_api_error
                   (taxonomy_table (status_code r))
                   (py_or (dict_get d "detail")
                      (py_or (dict_get d "error") (PyStr (text r))))
                   (status_code r) (PyDict d)))
      | Some _ => Raise (AttributeError "get")
      end.
Proof. exact (handle_response_cases r). Qed.

(** X2: a taxonomy error that leaves the decoder carries the status of the
    response, which is not a success status; its class is the one of the
    status table; its [response_data] is the parsed body, or the empty dict
    when the body did not parse; and its message is falsy only when it is
    the raw text and that text is empty. *)
Theorem raised_error_invariants (r : Response) (e : exceptions.api_error) :
  _handle_response r = Raise (APIError e) →
  ¬ success_status (status_code r)
  ∧ exceptions.status_code e = status_code r
  ∧ exceptions.cls e = taxonomy_table (status_code r)
  ∧ (∃ d, error_body r = Some d ∧ exceptions.response_data e = PyDict d)
  ∧ (truthy (exceptions.message e) = false →
     exceptions.message e = PyStr "" ∧ text r = "").
Proof.
  rewrite handle_response_cases. case_decide as Hs.
  { by destruct (json r). }
  assert (∀ m, truthy (PyStr m) = false → m = "") as Hempty.
  { intros m. cbn. by destruct (String.eqb_spec m ""). }
  destruct (json r) as [[]|] eqn:Hj; intros He; simplify_eq/=.
  - split; [done|]. split; [done|]. split; [done|].
    split; [exists d; split; [unfold error_body; by rewrite Hj|done]|].
    unfold py_or. destruct (truthy (dict_get d "detail")) eqn:Hd; [congruence|].
    destruct (truthy (dict_get d "error")) eqn:Hd'; [congruence|].
    intros Hf. by rewrite (Hempty _ Hf).
  - split; [done|]. split; [done|]. split; [done|].
    split; [exists ∅; split; [unfold error_body; by rewrite Hj|done]|].
    intros Hf. by rewrite (Hempty _ Hf).
Qed.

Lemma raised_error_invariants_witness :
  ∃ e, _handle_response
         (mkResponse 429 "slow down"
            (Some (PyDict {["detail" := PyStr "Rate limit exceeded"]})))
       = Raise (APIError e)
       ∧ exceptions.status_code e = 429
       ∧ exceptions.cls e = exceptions.SoroScanRateLimitError.
Proof.
  eexists.
  assert (_handle_response
            (mkResponse 429 "slow down"
               (Some (PyDict {["detail" := PyStr "Rate limit exceeded"]})))
          = Raise (APIError _)) as He by reflexivity.
  destruct (raised_error_invariants _ _ He) as (_ & Hst & Hc & _).
  split; [exact He|]. split; [exact Hst|exact Hc].
Defined.

End decoder.

Section delete_outcomes.
Import httpx SoroScanClient.
Context `{Transport}.

(** X3: [delete_contract] and [delete_webhook] transmit one DELETE and
    return [None] exactly when the answer is a 204, or is a 200, 201 or
    202 whose body is JSON; a 200 with an empty body, which is not JSON,
    makes them raise. *)
Theorem delete_outcomes (self : t) (contract_id : string) (webhook_id : Z)
    (log : list Request) :
  let req_c := mkRequest DELETE
                 (urljoin (base_url self) ("/api/contracts/" +:+ contract_id +:+ "/"))
                 (_get_headers self) None None in
  let req_w := mkRequest DELETE
                 (urljoin (base_url self) ("/api/webhooks/" +:+ pretty webhook_id +:+ "/"))
                 (_get_headers self) None None in
  (delete_contract self contract_id log).1 = log ++ [req_c]
  ∧ ((delete_contract self contract_id log).2 = Return () ↔
     status_code (send log req_c) = 204
     ∨ (success_status (status_code (send log req_c))
        ∧ is_Some (json (send log req_c))))
  ∧ (delete_webhook self webhook_id log).1 = log ++ [req_w]
  ∧ ((delete_webhook self webhook_id log).2 = Return () ↔
     status_code (send log req_w) = 204
     ∨ (success_status (status_code (send log req_w))
        ∧ is_Some (json (send log req_w)))).
Proof.
  intros req_c req_w.
  assert (∀ resp : Response,
            (if negb (status_code resp =? 204)
             then match _handle_response resp with
                  | Return _ => Return ()
                  | Raise e => Raise e
                  end
             else Return ()) = Return () ↔
            status_code resp = 204
            ∨ (success_status (status_code resp) ∧ is_Some (json resp))) as Hout.
  { intros resp. destruct (Z.eqb_spec (status_code resp) 204) as [Heq|Hne]; cbn.
    - split; [by left|done].
    - rewrite handle_response_cases. case_decide as Hs.
      + destruct (json resp); split; try done.
        * intros _. right. by split.
        * intros [?|[_ [? ?]]]; done.
      + split.
        * by destruct (json resp) as [[]|].
        * intros [?|[? _]]; done. }
  unfold delete_contract, delete_webhook, perform, lift, mbind, mret,
    io_bind, io_ret.
  fold req_c req_w. cbn.
  split; [by repeat case_match; simplify_eq/=|].
  split.
  { rewrite <- Hout. by repeat case_match; simplify_eq/=. }
  split; [by repeat case_match; simplify_eq/=|].
  rewrite <- Hout. by repeat case_match; simplify_eq/=.
Qed.

End delete_outcomes.

(** * The facade methods, call by call *)

Section decode_failures.
Context `{FieldValidators}.

Lemma bind_Raise {A B} (m : result A) (f : A → result B) (e : exn) :
  m ≫= f = Raise e → m = Raise e ∨ ∃ a, m = Return a ∧ f a = Raise e.
Proof.
  destruct m as [a|e']; intros Hm; [right; by exists a|left].
  cbn in Hm. congruence.
Qed.

Lemma from_validator_raises {A} (o : option A) (e : exn) :
  from_validator o = Raise e → e = PydanticValidationError.
Proof. destruct o; cbn; congruence. Qed.

Lemma required_raises {A} (validate : py_value → option A) (k : string)
    (data : gmap string py_value) (e : exn) :
  required validate k data = Raise e → e = PydanticValidationError.
Proof.
  unfold required. destruct (data !! k); [apply from_validator_raises|congruence].
Qed.

Lemma with_default_raises {A} (validate : py_value → option A) (k : string)
    (dflt : A) (data : gmap string py_value) (e : exn) :
  with_default validate k dflt data = Raise e → e = PydanticValidationError.
Proof.
  unfold with_default. destruct (data !! k); [apply from_validator_raises|congruence].
Qed.

Lemma mapM_raises {A B} (f : A → result B) (l : list A) (e : exn) :
  (∀ a e', f a = Raise e' → e' = PydanticValidationError) →
  mapM f l = Raise e → e = PydanticValidationError.
Proof.
  intros Hf. induction l as [|a l IH]; cbn; [done|].
  intros [Hr|(b & _ & Hr)]%bind_Raise; [by eapply Hf|].
  apply bind_Raise in Hr as [Hr|(bs & _ & Hr)]; [by apply IH|done].
Qed.

Ltac raise_steps Hr :=
  repeat (apply bind_Raise in Hr as [Hr|(? & _ & Hr)];
          [first [ by eapply required_raises
                 | by eapply with_default_raises
                 | by eapply from_validator_raises ]|]);
  try done.

(** What a model raises on an input it does not accept is pydantic's
    validation error. *)
Lemma TrackedContract_raises (v : py_value) (e : exn) :
  TrackedContract.model_validate v = Raise e → e = PydanticValidationError.
Proof. unfold TrackedContract.model_validate, as_dict. intros Hr. raise_steps Hr. Qed.

Lemma ContractEvent_raises (v : py_value) (e : exn) :
  ContractEvent.model_validate v = Raise e → e = PydanticValidationError.
Proof. unfold ContractEvent.model_validate, as_dict. intros Hr. raise_steps Hr. Qed.

Lemma WebhookSubscription_raises (v : py_value) (e : exn) :
  WebhookSubscription.model_validate v = Raise e → e = PydanticValidationError.
Proof. unfold WebhookSubscription.model_validate, as_dict. intros Hr. raise_steps Hr. Qed.

Lemma ContractStats_raises (v : py_value) (e : exn) :
  ContractStats.model_validate v = Raise e → e = PydanticValidationError.
Proof. unfold ContractStats.model_validate, as_dict. intros Hr. raise_steps Hr. Qed.

Lemma PaginatedResponse_raises {T} (validate_T : py_value → result T)
    (v : py_value) (e : exn) :
  (∀ a e', validate_T a = Raise e' → e' = PydanticValidationError) →
  PaginatedResponse.validate_python validate_T v = Raise e →
  e = PydanticValidationError.
Proof.
  intros HT. unfold PaginatedResponse.validate_python, as_dict. intros Hr.
  do 5 (apply bind_Raise in Hr as [Hr|(? & _ & Hr)];
        [first [ by eapply required_raises
               | by eapply with_default_raises
               | by eapply from_validator_raises ]|]).
  apply bind_Raise in Hr as [Hr|(? & _ & Hr)]; [by eapply mapM_raises|done].
Qed.

End decode_failures.

Section calls.
Import httpx.
Context `{FieldValidators, Transport}.

(** A method whose run is: transmit [req], decode, validate. *)
Lemma one_call_of_run {A} (m : io A) (req : Request)
    (validate : py_value → result A) :
  (∀ v e, validate v = Raise e → e = PydanticValidationError) →
  (∀ log, m log = (log ++ [req],
                   SoroScanClient._handle_response (send log req) ≫= validate)) →
  one_call m req validate.
Proof.
  intros Hv Hrun log. rewrite Hrun. cbn [fst snd].
  pose proof (handle_response_returns (send log req)) as Hret.
  pose proof (handle_response_cases (send log req)) as Hout.
  destruct (SoroScanClient._handle_response (send log req)) as [v|ex]; cbn.
  - destruct (proj1 (Hret v) eq_refl) as [Hs Hj].
    split; [done|]. split.
    + intros a. split; [by eauto|]. intros (_ & v' & Hj' & Hva). by simplify_eq.
    + intros e He. by apply Hv in He.
  - split; [done|]. split.
    + intros a. split; [done|]. intros (Hs & v' & Hj' & _).
      by pose proof (proj2 (Hret v') (conj Hs Hj')).
    + intros e He. simplify_eq.
      case_decide as Hs; [by destruct (json (send log req))|].
      split; [|done].
      by destruct (json (send log req)) as [[]|]; simplify_eq/=.
Qed.

Lemma one_call_intro {A} (req : Request) (validate : py_value → result A) :
  (∀ v e, validate v = Raise e → e = PydanticValidationError) →
  one_call (response ← perform req;
            data ← lift (SoroScanClient._handle_response response);
            lift (validate data)) req validate.
Proof.
  intros Hv. apply one_call_of_run; [done|]. intros log.
  unfold perform, lift, mbind, io_bind. cbn.
  by destruct (SoroScanClient._handle_response (send log req)).
Qed.

Lemma one_call_undecoded (req : Request) :
  one_call (response ← perform req;
            lift (SoroScanClient._handle_response response)) req Return.
Proof.
  apply one_call_of_run; [done|]. intros log.
  unfold perform, lift, mbind, io_bind. cbn.
  by destruct (SoroScanClient._handle_response (send log req)).
Qed.

Import SoroScanClient.

(** X4: each of the five contract methods other than the delete makes
    exactly one request, of the method and path of its endpoint, with the
    headers of [_get_headers]: the list call a GET on [/api/contracts/]
    with the query parameters, the two single-contract reads a GET, the
    creation a POST on [/api/contracts/] with the payload as JSON body,
    the update a PATCH.  The call returns exactly what the model makes of
    a 200/201/202 JSON answer, and a taxonomy error carries the status of
    that one answer. *)
Theorem contract_calls (self : t) (contract_id name description : string)
    (abi_schema : option (gmap string py_value))
    (new_name new_description : option string) (is_active : option bool)
    (search : option string) (page page_size : Z) :
  one_call (get_contracts self is_active search page page_size)
    (mkRequest GET (urljoin (base_url self) "/api/contracts/")
       (_get_headers self)
       (Some (get_contracts_params is_active search page page_size)) None)
    (PaginatedResponse.validate_python TrackedContract.model_validate)
  ∧ one_call (get_contract self contract_id)
      (mkRequest GET
         (urljoin (base_url self) ("/api/contracts/" +:+ contract_id +:+ "/"))
         (_get_headers self) None None)
      TrackedContract.model_validate
  ∧ one_call (create_contract self contract_id name description abi_schema)
      (mkRequest POST (urljoin (base_url self) "/api/contracts/")
         (_get_headers self) None
         (Some (PyDict (create_contract_payload contract_id name description
                          abi_schema))))
      TrackedContract.model_validate
  ∧ one_call (update_contract self contract_id new_name new_description is_active)
      (mkRequest PATCH
         (urljoin (base_url self) ("/api/contracts/" +:+ contract_id +:+ "/"))
         (_get_headers self) None
         (Some (PyDict (update_contract_payload new_name new_description
                          is_active))))
      TrackedContract.model_validate
  ∧ one_call (get_contract_stats self contract_id)
      (mkRequest GET
         (urljoin (base_url self)
            ("/api/contracts/" +:+ contract_id +:+ "/stats/"))
         (_get_headers self) None None)
      ContractStats.model_validate.
Proof.
  split_and!; apply one_call_intro;
    eauto using TrackedContract_raises, ContractStats_raises,
      PaginatedResponse_raises.
Qed.

(** X5: the two event reads make exactly one GET, on [/api/events/] with
    the query parameters and on [/api/events/{id}/]; they return exactly
    what the model makes of a 200/201/202 JSON answer, and a taxonomy
    error carries the status of that one answer. *)
Theorem event_calls (self : t) (contract_id event_type : option string)
    (ledger ledger_min ledger_max : option Z)
    (validation_status : option string) (ordering : string)
    (page page_size event_id : Z) :
  one_call (get_events self contract_id event_type ledger ledger_min ledger_max
              validation_status ordering page page_size)
    (mkRequest GET (urljoin (base_url self) "/api/events/")
       (_get_headers self)
       (Some (get_events_params contract_id event_type ledger ledger_min
                ledger_max validation_status ordering page page_size)) None)
    (PaginatedResponse.validate_python ContractEvent.model_validate)
  ∧ one_call (get_event self event_id)
      (mkRequest GET
         (urljoin (base_url self) ("/api/events/" +:+ pretty event_id +:+ "/"))
         (_get_headers self) None None)
      ContractEvent.model_validate.
Proof.
  split; apply one_call_intro;
    eauto using ContractEvent_raises, PaginatedResponse_raises.
Qed.

(** X6: each of the five webhook methods other than the delete makes
    exactly one request: the list call a GET on [/api/webhooks/] with
    [page] and [page_size] and nothing else as query, the single read a
    GET, the creation a POST on [/api/webhooks/] with the payload, the
    update a PATCH, the test a POST on [/api/webhooks/{id}/test/] without
    a body.  The first four return what the model makes of a 200/201/202
    JSON answer; the test returns that JSON answer as it is, whatever its
    shape. *)
Theorem webhook_calls (self : t) (webhook_id contract_id : Z)
    (target_url event_type : string)
    (new_target_url new_event_type : option string) (is_active : option bool)
    (page page_size : Z) :
  one_call (get_webhooks self page page_size)
    (mkRequest GET (urljoin (base_url self) "/api/webhooks/")
       (_get_headers self)
       (Some (<["page_size" := PyInt page_size]> {["page" := PyInt page]}))
       None)
    (PaginatedResponse.validate_python WebhookSubscription.model_validate)
  ∧ one_call (get_webhook self webhook_id)
      (mkRequest GET
         (urljoin (base_url self) ("/api/webhooks/" +:+ pretty webhook_id +:+ "/"))
         (_get_headers self) None None)
      WebhookSubscription.model_validate
  ∧ one_call (create_webhook self contract_id target_url event_type)
      (mkRequest POST (urljoin (base_url self) "/api/webhooks/")
         (_get_headers self) None
         (Some (PyDict (create_webhook_payload contract_id target_url
                          event_type))))
      WebhookSubscription.model_validate
  ∧ one_call (update_webhook self webhook_id new_target_url new_event_type
                is_active)
      (mkRequest PATCH
         (urljoin (base_url self) ("/api/webhooks/" +:+ pretty webhook_id +:+ "/"))
         (_get_headers self) None
         (Some (PyDict (update_webhook_payload new_target_url new_event_type
                          is_active))))
      WebhookSubscription.model_validate
  ∧ one_call (test_webhook self webhook_id)
      (mkRequest POST
         (urljoin (base_url self)
            ("/api/webhooks/" +:+ pretty webhook_id +:+ "/test/"))
         (_get_headers self) None None)
      Return.
Proof.
  split_and!; first [apply one_call_undecoded | apply one_call_intro];
    eauto using WebhookSubscription_raises, PaginatedResponse_raises.
Qed.

End calls.

Section call_examples.
Import httpx SoroScanClient.

Lemma contract_calls_witness :
  let T := constant_server not_found_response in
  let V := strict_validators in
  (get_contract test_client "999" []).1
  = [mkRequest GET "https://api.test.soroscan.io/api/contracts/999/"
       (_get_headers test_client) None None]
  ∧ ∃ e, (get_contract test_client "999" []).2 = Raise (APIError e)
         ∧ exceptions.status_code e = 404.
Proof.
  intros T V.
  destruct (contract_calls (H:=V) (H0:=T) test_client "999" "" "" None None None
              None None 1 50) as (_ & Hget & _).
  destruct (Hget []) as (Hlog & _ & Herr).
  split; [exact Hlog|]. eexists.
  assert ((get_contract test_client "999" []).2 = Raise (APIError _)) as He
    by (vm_compute; reflexivity).
  split; [exact He|]. exact (proj1 (Herr _ He)).
Defined.

Lemma event_calls_witness :
  let T := constant_server event_response in
  let V := strict_validators in
  ∃ ev, (get_event test_client 1 []).2 = Return ev
        ∧ ContractEvent.event_type ev = "transfer".
Proof.
  intros T V. eexists.
  destruct (event_calls (H:=V) (H0:=T) test_client None None None None None
              None "-timestamp" 1 50 1) as (_ & Hget).
  destruct (Hget []) as (_ & Hret & _).
  split.
  - apply Hret. split; [unfold success_status; cbn; lia|].
    eexists. split; [reflexivity|]. vm_compute. reflexivity.
  - reflexivity.
Defined.

Lemma webhook_calls_witness :
  let T := constant_server queued_response in
  let V := strict_validators in
  (test_webhook test_client 1 []).2
  = Return (PyDict {["status" := PyStr "test_webhook_queued"]}).
Proof.
  intros T V.
  destruct (webhook_calls (H:=V) (H0:=T) test_client 1 1 "" "" None None None
              1 50) as (_ & _ & _ & _ & Htest).
  destruct (Htest []) as (_ & Hret & _).
  apply Hret. split; [unfold success_status; cbn; lia|].
  eexists. split; reflexivity.
Defined.

End call_examples.

(** * Construction and request building *)

Section base_url.

Lemma rstrip_slash_last (s : string) :
  last_char (rstrip_slash s) ≠ Some "/"%char.
Proof.
  induction s as [|a s IH]; cbn; [done|].
  destruct (rstrip_slash s) as [|b r] eqn:Hr.
  - destruct (Ascii.eqb_spec a "/"%char) as [->|Hne]; cbn; congruence.
  - exact IH.
Qed.

Lemma rstrip_slash_slashes (s : string) :
  ∃ n, s = rstrip_slash s +:+ slashes n.
Proof.
  induction s as [|a s [n IH]]; cbn.
  - by exists 0%nat.
  - destruct (rstrip_slash s) as [|b r] eqn:Hr.
    + destruct (Ascii.eqb_spec a "/"%char) as [->|Hne].
      * exists (S n). cbn. by rewrite IH at 1.
      * exists n. cbn. by rewrite IH at 1.
    + exists n. cbn. by rewrite IH at 1.
Qed.

(** X7: whatever URL a client is constructed with, blocking or
    suspending, the [base_url] it keeps does not end in a slash, and it is
    the given URL with nothing but its trailing slashes taken off. *)
Theorem base_url_is_stripped (url : string) (key : option string)
    (tmo : spec_float) :
  let kept := SoroScanClient.base_url (SoroScanClient.__init__ url key tmo) in
  last_char kept ≠ Some "/"%char
  ∧ (∃ n, url = kept +:+ slashes n)
  ∧ AsyncSoroScanClient.base_url (AsyncSoroScanClient.__init__ url key tmo) = kept.
Proof.
  cbn. split; [apply rstrip_slash_last|]. split; [apply rstrip_slash_slashes|done].
Qed.

End base_url.

Section payloads.
Import SoroScanClient.

Lemma dict_truthy_nonempty (d : option (gmap string py_value)) :
  (if dict_truthy d then Some (PyDict (default ∅ d)) else None)
  = PyDict <$> (d ≫= λ m, if decide (m = ∅) then None else Some m).
Proof.
  destruct d as [m|]; [|done]. cbn.
  case_bool_decide; by case_decide.
Qed.

Ltac peel_payload :=
  repeat first
    [ rewrite lookup_guarded_insert_ne by congruence
    | rewrite lookup_optional_insert_ne by congruence
    | rewrite lookup_insert_ne by congruence
    | rewrite lookup_guarded_insert_eq
    | rewrite lookup_optional_insert_eq
    | rewrite lookup_insert_eq
    | rewrite lookup_empty ].

(** X8: the body of an update holds a field exactly when its argument
    was given, with the given value, the empty string and false
    included; when no argument is given the body is the empty object, and
    the PATCH is made all the same (X4, X6). *)
Theorem update_payloads (name description target_url event_type : option string)
    (is_active : option bool) :
  let p := update_contract_payload name description is_active in
  let q := update_webhook_payload target_url event_type is_active in
  p !! "name" = PyStr <$> name
  ∧ p !! "description" = PyStr <$> description
  ∧ p !! "is_active" = PyBool <$> is_active
  ∧ (∀ k, k ∉ ["name"; "description"; "is_active"] → p !! k = None)
  ∧ q !! "target_url" = PyStr <$> target_url
  ∧ q !! "event_type" = PyStr <$> event_type
  ∧ q !! "is_active" = PyBool <$> is_active
  ∧ (∀ k, k ∉ ["target_url"; "event_type"; "is_active"] → q !! k = None)
  ∧ update_contract_payload None None None = ∅
  ∧ update_webhook_payload None None None = ∅.
Proof.
  cbv zeta. unfold update_contract_payload, update_webhook_payload. cbv zeta.
  split_and!; try reflexivity;
    try (intros k Hk; rewrite !not_elem_of_cons in Hk; destruct_and!);
    peel_payload; by repeat case_match.
Qed.

(** X9: the body of [create_contract] always holds [contract_id], [name]
    and [description], an empty description included, and holds
    [abi_schema] exactly when a schema was given that is not the empty
    dict; the body of [create_webhook] always holds the database id under
    [contract], the [target_url] and the [event_type], the empty filter
    included.  Neither holds any other key. *)
Theorem create_payloads (contract_id name description : string)
    (abi_schema : option (gmap string py_value)) (contract : Z)
    (target_url event_type : string) :
  let p := create_contract_payload contract_id name description abi_schema in
  let q := create_webhook_payload contract target_url event_type in
  p !! "contract_id" = Some (PyStr contract_id)
  ∧ p !! "name" = Some (PyStr name)
  ∧ p !! "description" = Some (PyStr description)
  ∧ p !! "abi_schema"
    = PyDict <$> (abi_schema ≫= λ m, if decide (m = ∅) then None else Some m)
  ∧ (∀ k, k ∉ ["contract_id"; "name"; "description"; "abi_schema"] →
          p !! k = None)
  ∧ q !! "contract" = Some (PyInt contract)
  ∧ q !! "target_url" = Some (PyStr target_url)
  ∧ q !! "event_type" = Some (PyStr event_type)
  ∧ (∀ k, k ∉ ["contract"; "target_url"; "event_type"] → q !! k = None).
Proof.
  cbv zeta. unfold create_contract_payload, create_webhook_payload. cbv zeta.
  rewrite <- dict_truthy_nonempty.
  split_and!;
    try (intros k Hk; rewrite !not_elem_of_cons in Hk; destruct_and!);
    peel_payload; by repeat case_match.
Qed.

(** X10: the query of the two filtered list calls always holds [page] and
    [page_size], and for events [ordering], with the values passed in,
    whatever the filters; and it never holds a key outside the fixed
    table of parameter names. *)
Theorem pagination_parameters
    (contract_id event_type : option string)
    (ledger ledger_min ledger_max : option Z)
    (validation_status : option string) (ordering : string)
    (is_active : option bool) (search : option string) (page page_size : Z) :
  let p := get_events_params contract_id event_type ledger ledger_min
             ledger_max validation_status ordering page page_size in
  let q := get_contracts_params is_active search page page_size in
  p !! "page" = Some (PyInt page)
  ∧ p !! "page_size" = Some (PyInt page_size)
  ∧ p !! "ordering" = Some (PyStr ordering)
  ∧ (∀ k, k ∉ ["page"; "page_size"; "ordering"; "contract__contract_id";
               "event_type"; "ledger"; "ledger__gte"; "ledger__lte";
               "validation_status"] → p !! k = None)
  ∧ q !! "page" = Some (PyInt page)
  ∧ q !! "page_size" = Some (PyInt page_size)
  ∧ (∀ k, k ∉ ["page"; "page_size"; "is_active"; "search"] → q !! k = None).
Proof.
  cbv zeta. unfold get_events_params, get_contracts_params. cbv zeta.
  split_and!;
    try (intros k Hk; rewrite !not_elem_of_cons in Hk; destruct_and!);
    peel_payload; by repeat case_match.
Qed.

End payloads.

(** * Further properties of the models *)

Section models.
Context `{FieldValidators}.

Ltac decoded Hdec :=
  cbn [as_dict validate_dict from_validator mbind result_bind] in Hdec;
  repeat (apply bind_Return in Hdec as (? & ? & Hdec));
  injection Hdec as <-.

(** X11: a [RecordEventRequest] keeps its three arguments unchanged,
    nothing is cut to fit; and dumping a request and validating the dump
    gives the request back exactly when its fields are within the
    ceilings of 56, 100 and 64 characters. *)
Theorem record_event_request_round_trip :
  (∀ contract_id event_type payload_hash r,
     RecordEventRequest.new contract_id event_type payload_hash = Return r →
     r = RecordEventRequest.mk contract_id event_type payload_hash)
  ∧ (∀ r,
       RecordEventRequest.model_validate (RecordEventRequest.model_dump r)
       = Return r ↔
       (String.length (RecordEventRequest.contract_id r) ≤ 56
        ∧ String.length (RecordEventRequest.event_type r) ≤ 100
        ∧ String.length (RecordEventRequest.payload_hash r) ≤ 64)%nat).
Proof.
  split.
  - intros c e p r. rewrite RecordEventRequest_new.
    case_match; [congruence|done].
  - intros [c e p]. cbn [RecordEventRequest.contract_id
      RecordEventRequest.event_type RecordEventRequest.payload_hash].
    change (RecordEventRequest.model_validate
              (RecordEventRequest.model_dump (RecordEventRequest.mk c e p)))
      with (RecordEventRequest.new c e p).
    rewrite RecordEventRequest_new.
    repeat case_bool_decide; cbn; split; try done; try lia.
Qed.




(** X13: a key that no field of the model declares does not matter: with
    it added to the input, or changed, each model decodes to the same
    outcome as without. *)
Theorem unknown_keys_are_ignored (data : gmap string py_value) (k : string)
    (v : py_value) :
  (k ∉ ["id"; "contract_id"; "name"; "description"; "abi_schema"; "is_active";
        "last_indexed_ledger"; "event_count"; "created_at"; "updated_at"] →
   TrackedContract.model_validate (PyDict (<[k:=v]> data))
   = TrackedContract.model_validate (PyDict data))
  ∧ (k ∉ ["id"; "contract_id"; "contract_name"; "event_type"; "payload";
          "payload_hash"; "ledger"; "event_index"; "timestamp"; "tx_hash";
          "schema_version"; "validation_status"] →
     ContractEvent.model_validate (PyDict (<[k:=v]> data))
     = ContractEvent.model_validate (PyDict data))
  ∧ (k ∉ ["id"; "contract"; "contract_id"; "event_type"; "target_url";
          "is_active"; "created_at"; "last_triggered"; "failure_count"] →
     WebhookSubscription.model_validate (PyDict (<[k:=v]> data))
     = WebhookSubscription.model_validate (PyDict data))
  ∧ (k ∉ ["contract_id"; "name"; "total_events"; "unique_event_types";
          "latest_ledger"; "last_activity"] →
     ContractStats.model_validate (PyDict (<[k:=v]> data))
     = ContractStats.model_validate (PyDict data)).
Proof.
  split_and!; intros Hk; rewrite !not_elem_of_cons in Hk; destruct_and!;
    unfold TrackedContract.model_validate, ContractEvent.model_validate,
      WebhookSubscription.model_validate, ContractStats.model_validate;
    cbn [as_dict validate_dict from_validator mbind result_bind];
    rewrite ?required_insert_ne, ?with_default_insert_ne by congruence;
    reflexivity.
Qed.

Lemma mapM_Return {A B} (f : A → result B) (l : list A) (k : list B) :
  mapM f l = Return k → Forall2 (λ a b, f a = Return b) l k.
Proof.
  revert k. induction l as [|a l IH]; intros k Hm; cbn in Hm.
  - injection Hm as <-. constructor.
  - apply bind_Return in Hm as (b & Hb & Hm).
    apply bind_Return in Hm as (bs & Hbs & Hm). injection Hm as <-.
    constructor; [done|by apply IH].
Qed.

Lemma validate_list_Some (v : py_value) (items : list py_value) :
  validate_list Some v = Some items → v = PyList items.
Proof.
  destruct v; cbn; try done. intros Hm. f_equal.
  apply mapM_Some in Hm. induction Hm; [done|]. by simplify_eq.
Qed.

(** X14: a page decodes element by element: its [results] are the
    decoded elements of the input list, as many and in the same order, so
    one element that does not decode fails the page; and [count] is taken
    from the input as it is, without being compared to the number of
    results. *)
Theorem page_decodes_elementwise {T} (validate_T : py_value → result T)
    (data : gmap string py_value) (p : PaginatedResponse.t T) :
  PaginatedResponse.validate_python validate_T (PyDict data) = Return p →
  ∃ items,
    data !! "results" = Some (PyList items)
    ∧ Forall2 (λ v t, validate_T v = Return t) items (PaginatedResponse.results p)
    ∧ length (PaginatedResponse.results p) = length items
    ∧ (∀ n, data !! "count" = Some (PyInt n) → PaginatedResponse.count p = n).
Proof.
  intros Hdec. unfold PaginatedResponse.validate_python in Hdec. decoded Hdec.
  cbn.
  match goal with
  | Hr : required (validate_list Some) "results" data = Return ?items |- _ =>
      exists items; unfold required in Hr;
      destruct (data !! "results") as [v|] eqn:Hv; [|done];
      destruct (validate_list Some v) as [items'|] eqn:Hl; [|done];
      cbn in Hr; injection Hr as ->;
      apply validate_list_Some in Hl as ->
  end.
  match goal with
  | Hm : mapM validate_T _ = Return _ |- _ => apply mapM_Return in Hm
  end.
  split; [done|]. split; [done|]. split; [symmetry; by eapply Forall2_length|].
  intros n Hn.
  match goal with
  | Hc : required validate_int "count" data = Return _ |- _ =>
      unfold required in Hc; rewrite Hn, validate_int_ok in Hc; cbn in Hc;
      congruence
  end.
Qed.

Lemma with_default_null {A} (validate : py_value → option A) (k : string)
    (data : gmap string py_value) (a : option A) :
  data !! k = None ∨ data !! k = Some PyNone →
  with_default (nullable validate) k None data = Return a → a = None.
Proof. unfold with_default. intros [->| ->]; cbn; congruence. Qed.

(** X15: a field annotated [T | None] decodes to [None] both when its key
    is absent and when its value is null: the schema and the last indexed
    ledger of a contract, the schema version of an event, the last
    trigger of a webhook, the latest ledger and last activity of the
    statistics, the [next] and [previous] links of a page, the hash,
    status and error of the answer to [record_event]. *)
Theorem null_and_absent_agree (data : gmap string py_value) :
  let blank k := data !! k = None ∨ data !! k = Some PyNone in
  (∀ c, TrackedContract.model_validate (PyDict data) = Return c →
     (blank "abi_schema" → TrackedContract.abi_schema c = None)
     ∧ (blank "last_indexed_ledger" →
        TrackedContract.last_indexed_ledger c = None))
  ∧ (∀ e, ContractEvent.model_validate (PyDict data) = Return e →
       blank "schema_version" → ContractEvent.schema_version e = None)
  ∧ (∀ w, WebhookSubscription.model_validate (PyDict data) = Return w →
       blank "last_triggered" → WebhookSubscription.last_triggered w = None)
  ∧ (∀ st, ContractStats.model_validate (PyDict data) = Return st →
       (blank "latest_ledger" → ContractStats.latest_ledger st = None)
       ∧ (blank "last_activity" → ContractStats.last_activity st = None))
  ∧ (∀ T (validate_T : py_value → result T) p,
       PaginatedResponse.validate_python validate_T (PyDict data) = Return p →
       (blank "next" → PaginatedResponse.next p = None)
       ∧ (blank "previous" → PaginatedResponse.previous p = None))
  ∧ (∀ r, RecordEventResponse.model_validate (PyDict data) = Return r →
       (blank "tx_hash" → RecordEventResponse.tx_hash r = None)
       ∧ (blank "transaction_status" →
          RecordEventResponse.transaction_status r = None)
       ∧ (blank "error" → RecordEventResponse.error r = None)).
Proof.
  intros blank. subst blank. cbv beta. split_and!.
  - intros c Hdec. unfold TrackedContract.model_validate in Hdec. decoded Hdec.
    cbn. split; intros Hb; by eapply with_default_null.
  - intros e Hdec Hb. unfold ContractEvent.model_validate in Hdec.
    decoded Hdec. cbn. by eapply with_default_null.
  - intros w Hdec Hb. unfold WebhookSubscription.model_validate in Hdec.
    decoded Hdec. cbn. by eapply with_default_null.
  - intros st Hdec. unfold ContractStats.model_validate in Hdec. decoded Hdec.
    cbn. split; intros Hb; by eapply with_default_null.
  - intros T vT p Hdec. unfold PaginatedResponse.validate_python in Hdec.
    decoded Hdec. cbn. split; intros Hb; by eapply with_default_null.
  - intros r Hdec. unfold RecordEventResponse.model_validate in Hdec.
    decoded Hdec. cbn. split_and!; intros Hb; by eapply with_default_null.
Qed.

End models.

Section model_examples.

Lemma record_event_request_round_trip_witness :
  ∃ r, RecordEventRequest.new (H:=strict_validators) sample_address "transfer"
         "abc123def456" = Return r
       ∧ RecordEventRequest.model_validate (H:=strict_validators)
           (RecordEventRequest.model_dump r) = Return r.
Proof.
  destruct (record_event_request_round_trip (H:=strict_validators))
    as [Hkeep Hround].
  eexists.
  assert (RecordEventRequest.new (H:=strict_validators) sample_address
            "transfer" "abc123def456" = Return _) as Hnew
    by (vm_compute; reflexivity).
  split; [exact Hnew|]. apply Hround. vm_compute. lia.
Defined.


Lemma unknown_keys_are_ignored_witness :
  TrackedContract.model_validate (H:=strict_validators)
    (PyDict (<["owner" := PyStr "GAAA..."]> minimal_contract_data))
  = TrackedContract.model_validate (H:=strict_validators)
      (PyDict minimal_contract_data).
Proof.
  apply (unknown_keys_are_ignored (H:=strict_validators)
           minimal_contract_data "owner" (PyStr "GAAA...")).
  refine (bool_decide_unpack _ _); vm_compute; exact I.
Defined.

Lemma page_decodes_elementwise_witness :
  ∃ p, PaginatedResponse.validate_python (H:=strict_validators)
         (TrackedContract.model_validate (H:=strict_validators))
         (PyDict contracts_page_data) = Return p
       ∧ length (PaginatedResponse.results p) = 1%nat
       ∧ PaginatedResponse.count p = 100.
Proof.
  eexists.
  assert (PaginatedResponse.validate_python (H:=strict_validators)
            (TrackedContract.model_validate (H:=strict_validators))
            (PyDict contracts_page_data) = Return _) as Hdec
    by (vm_compute; reflexivity).
  destruct (page_decodes_elementwise (H:=strict_validators) _ _ _ Hdec)
    as (items & Hitems & _ & Hlen & Hcount).
  split; [exact Hdec|]. split.
  - rewrite Hlen. vm_compute in Hitems. by simplify_eq.
  - apply Hcount. reflexivity.
Defined.

Lemma null_and_absent_agree_witness :
  ∃ p c, PaginatedResponse.validate_python (H:=strict_validators)
           (TrackedContract.model_validate (H:=strict_validators))
           (PyDict contracts_page_data) = Return p
         ∧ PaginatedResponse.previous p = None
         ∧ TrackedContract.model_validate (H:=strict_validators)
             (PyDict minimal_contract_data) = Return c
         ∧ TrackedContract.abi_schema c = None.
Proof.
  do 2 eexists.
  assert (PaginatedResponse.validate_python (H:=strict_validators)
            (TrackedContract.model_validate (H:=strict_validators))
            (PyDict contracts_page_data) = Return _) as Hp
    by (vm_compute; reflexivity).
  assert (TrackedContract.model_validate (H:=strict_validators)
            (PyDict minimal_contract_data) = Return _) as Hc
    by (vm_compute; reflexivity).
  destruct (null_and_absent_agree (H:=strict_validators) contracts_page_data)
    as (_ & _ & _ & _ & Hpage & _).
  destruct (null_and_absent_agree (H:=strict_validators) minimal_contract_data)
    as (Hcontract & _).
  split; [exact Hp|]. split; [|split; [exact Hc|]].
  - apply (proj2 (Hpage _ _ _ Hp)). right. reflexivity.
  - apply (proj1 (Hcontract _ Hc)). left. reflexivity.
Defined.

End model_examples.

Section payload_examples.
Import SoroScanClient.

Lemma update_payloads_witness :
  update_contract_payload (Some "") None (Some false) !! "name" = Some (PyStr "")
  ∧ update_contract_payload (Some "") None (Some false) !! "id" = None.
Proof.
  destruct (update_payloads (Some "") None None None (Some false))
    as (Hname & _ & _ & Hother & _).
  split; [exact Hname|]. apply Hother. refine (bool_decide_unpack _ _); vm_compute; exact I.
Defined.

Lemma create_payloads_witness :
  create_contract_payload sample_address "Test Token" "" (Some ∅) !! "abi_schema"
  = None
  ∧ create_webhook_payload 1 "https://example.com/webhook" "" !! "contract_id"
    = None.
Proof.
  destruct (create_payloads sample_address "Test Token" "" (Some ∅) 1
              "https://example.com/webhook" "")
    as (_ & _ & _ & Hschema & _ & _ & _ & _ & Hother).
  split; [exact Hschema|]. apply Hother. refine (bool_decide_unpack _ _); vm_compute; exact I.
Defined.

Lemma pagination_parameters_witness :
  get_events_params (Some sample_address) None (Some 0) None None None
    "-timestamp" 1 50 !! "offset" = None.
Proof.
  destruct (pagination_parameters (Some sample_address) None (Some 0) None None
              None "-timestamp" None None 1 50)
    as (_ & _ & _ & Hother & _).
  apply Hother. refine (bool_decide_unpack _ _); vm_compute; exact I.
Defined.

End payload_examples.

(** * How calls fail, and the two facades once more *)

Section failures.
Import httpx SoroScanClient.
Context `{FieldValidators, Transport}.

Lemma RecordEventResponse_raises (v : py_value) (e : exn) :
  RecordEventResponse.model_validate v = Raise e → e = PydanticValidationError.
Proof.
  unfold RecordEventResponse.model_validate, as_dict. intros Hr.
  repeat (apply bind_Raise in Hr as [Hr|(? & _ & Hr)];
          [first [ by eapply required_raises
                 | by eapply with_default_raises
                 | by eapply from_validator_raises ]|]);
  done.
Qed.

Lemma run_decoding {A} (req : Request) (validate : py_value → result A)
    (log : list Request) :
  (response ← perform req;
   data ← lift (_handle_response response);
   lift (validate data)) log
  = (log ++ [req], _handle_response (send log req) ≫= validate).
Proof.
  unfold perform, lift, mbind, io_bind. cbn.
  by destruct (_handle_response (send log req)).
Qed.

Lemma run_undecoded (req : Request) (log : list Request) :
  (response ← perform req; lift (_handle_response response)) log
  = (log ++ [req], _handle_response (send log req) ≫= Return).
Proof.
  unfold perform, lift, mbind, io_bind. cbn.
  by destruct (_handle_response (send log req)).
Qed.

Lemma run_delete (req : Request) (log : list Request) :
  (response ← perform req;
   if negb (status_code response =? 204)
   then _ ← lift (_handle_response response); mret ()
   else mret ()) log
  = (log ++ [req],
     if negb (status_code (send log req) =? 204)
     then _handle_response (send log req) ≫= λ _, Return ()
     else Return ()).
Proof.
  unfold perform, lift, mbind, mret, io_bind, io_ret. cbn.
  destruct (negb _); [|done].
  by destruct (_handle_response (send log req)).
Qed.

(** The failures of a decoded answer. *)
Lemma decoded_failure {A} (answer : Response) (validate : py_value → result A)
    (ex : exn) :
  (∀ v e, validate v = Raise e → e = PydanticValidationError) →
  _handle_response answer ≫= validate = Raise ex →
  match ex with
  | APIError e =>
      ¬ success_status (status_code answer)
      ∧ exceptions.status_code e = status_code answer
  | AttributeError _ =>
      ¬ success_status (status_code answer)
      ∧ ∃ v, json answer = Some v ∧ ¬ is_dict v
  | JSONDecodeError =>
      success_status (status_code answer) ∧ json answer = None
  | PydanticValidationError =>
      success_status (status_code answer) ∧ is_Some (json answer)
  end.
Proof.
  intros Hv. rewrite handle_response_cases. case_decide as Hs.
  - destruct (json answer) as [v|]; cbn.
    + intros ->%Hv. by split.
    + intros [= <-]. by split.
  - destruct (json answer) as [v|]; [destruct v|]; cbn; intros [= <-];
      try (split; [done|]; eexists; split; [done|]; by intros []);
      by split.
Qed.

Lemma failure_modes_of_run {A} (m : io A) (req : Request)
    (validate : py_value → result A) :
  (∀ v e, validate v = Raise e → e = PydanticValidationError) →
  (∀ log, m log = (log ++ [req], _handle_response (send log req) ≫= validate)) →
  failure_modes m.
Proof.
  intros Hv Hrun log ex. rewrite Hrun. cbn [fst snd]. intros Hex.
  exists req. split; [done|]. by eapply decoded_failure.
Qed.

Lemma failure_modes_of_delete (m : io ()) (req : Request) :
  (∀ log, m log = (log ++ [req],
                   if negb (status_code (send log req) =? 204)
                   then _handle_response (send log req) ≫= λ _, Return ()
                   else Return ())) →
  failure_modes m.
Proof.
  intros Hrun log ex. rewrite Hrun. cbn [fst snd]. intros Hex.
  exists req. split; [done|]. destruct (negb _); [|done].
  by eapply (decoded_failure _ (λ _, Return ())).
Qed.

(** X16: within the three ceilings [record_event] is a call like the
    others: one POST on [/api/record-event/] whose JSON body holds the
    three arguments, returning what the answer model makes of a
    200/201/202 JSON answer. *)
Theorem record_event_call (self : t)
    (contract_id event_type payload_hash : string) :
  (String.length contract_id ≤ 56 ∧ String.length event_type ≤ 100
   ∧ String.length payload_hash ≤ 64)%nat →
  one_call (record_event self contract_id event_type payload_hash)
    (mkRequest POST (urljoin (base_url self) "/api/record-event/")
       (_get_headers self) None
       (Some (PyDict (<["payload_hash" := PyStr payload_hash]>
                     (<["event_type" := PyStr event_type]>
                     (<["contract_id" := PyStr contract_id]> ∅))))))
    RecordEventResponse.model_validate.
Proof.
  intros (Hc & He & Hp). apply one_call_of_run; [apply RecordEventResponse_raises|].
  intros log. unfold record_event. unfold mbind at 1, io_bind at 1, lift at 1.
  rewrite RecordEventRequest_new, !bool_decide_eq_true_2 by done.
  cbn [andb]. apply run_decoding.
Qed.

(** X17: when one of the fourteen methods that always transmit raises,
    it has made its one request, and the exception tells what the answer
    was: a taxonomy error or the [AttributeError] of the [get] lookup
    means a status other than 200, 201, 202, the taxonomy error
    carrying that status; the JSON error means a
    success status with a body that is not JSON; pydantic's validation
    error means a success status with a JSON body. *)
Theorem facade_failure_modes (self : t) (contract_id name description : string)
    (abi_schema : option (gmap string py_value))
    (opt_a opt_b filter_a filter_b filter_c : option string)
    (is_active : option bool) (ledger ledger_min ledger_max : option Z)
    (ordering target_url event_type : string)
    (page page_size event_id webhook_id contract : Z) :
  failure_modes (get_contracts self is_active filter_a page page_size)
  ∧ failure_modes (get_contract self contract_id)
  ∧ failure_modes (create_contract self contract_id name description abi_schema)
  ∧ failure_modes (update_contract self contract_id opt_a opt_b is_active)
  ∧ failure_modes (delete_contract self contract_id)
  ∧ failure_modes (get_contract_stats self contract_id)
  ∧ failure_modes (get_events self filter_a filter_b ledger ledger_min
                     ledger_max filter_c ordering page page_size)
  ∧ failure_modes (get_event self event_id)
  ∧ failure_modes (get_webhooks self page page_size)
  ∧ failure_modes (get_webhook self webhook_id)
  ∧ failure_modes (create_webhook self contract target_url event_type)
  ∧ failure_modes (update_webhook self webhook_id opt_a opt_b is_active)
  ∧ failure_modes (delete_webhook self webhook_id)
  ∧ failure_modes (test_webhook self webhook_id).
Proof.
  split_and!;
    first
      [ eapply failure_modes_of_delete; intros log; apply run_delete
      | eapply (failure_modes_of_run _ _ Return);
        [done|intros log; apply run_undecoded]
      | eapply failure_modes_of_run; [|intros log; apply run_decoding];
        eauto using TrackedContract_raises, ContractStats_raises,
          ContractEvent_raises, WebhookSubscription_raises,
          PaginatedResponse_raises ].
Qed.

End failures.

Section failure_examples.
Import httpx SoroScanClient.

Lemma record_event_call_witness :
  let T := constant_server accepted_response in
  let V := strict_validators in
  (record_event test_client sample_address "transfer" "abc123def456" []).2
  = Return (RecordEventResponse.mk "submitted" (Some "tx123456") None None).
Proof.
  intros T V.
  destruct (record_event_call (H:=V) (H0:=T) test_client sample_address
              "transfer" "abc123def456") with (log := @nil Request)
    as (_ & Hret & _).
  - vm_compute. lia.
  - apply Hret. split; [unfold success_status; cbn; lia|].
    eexists. split; [reflexivity|]. vm_compute. reflexivity.
Defined.

Lemma facade_failure_modes_witness :
  let T := constant_server not_found_response in
  let V := strict_validators in
  ∃ req, (delete_webhook test_client 7 []).1 = [req]
         ∧ ¬ success_status (status_code (send [] req)).
Proof.
  intros T V.
  destruct (facade_failure_modes (H:=V) (H0:=T) test_client "" "" "" None None
              None None None None None None None None "" "" "" 1 50 1 7 1)
    as (_ & _ & _ & _ & _ & _ & _ & _ & _ & _ & _ & _ & Hdel & _).
  assert (∃ e, (delete_webhook test_client 7 []).2 = Raise (APIError e))
    as [e He] by (eexists; vm_compute; reflexivity).
  destruct (Hdel [] _ He) as (req & Hlog & Hs & _).
  exists req. split; [exact Hlog|exact Hs].
Defined.

End failure_examples.

Section more_variants.

(** X18: the suspending facade runs each of the ten remaining methods to
    the same transmitted requests and the same outcome as the blocking
    one, for the same configuration, arguments and transport; the request
    bodies of the creations and updates are built alike. *)
Theorem remaining_methods_agree (V : FieldValidators) (T : Transport)
    (url : string) (key : option string) (tmo : spec_float)
    (log : list httpx.Request) :
  let s := SoroScanClient.__init__ url key tmo in
  let a := AsyncSoroScanClient.__init__ url key tmo in
  (∀ contract_id,
     SoroScanClient.get_contract s contract_id log
     = AsyncSoroScanClient.get_contract a contract_id log)
  ∧ (∀ contract_id name description abi_schema,
       SoroScanClient.create_contract s contract_id name description abi_schema log
       = AsyncSoroScanClient.create_contract a contract_id name description
           abi_schema log)
  ∧ (∀ contract_id name description is_active,
       SoroScanClient.update_contract s contract_id name description is_active log
       = AsyncSoroScanClient.update_contract a contract_id name description
           is_active log)
  ∧ (∀ contract_id,
       SoroScanClient.get_contract_stats s contract_id log
       = AsyncSoroScanClient.get_contract_stats a contract_id log)
  ∧ (∀ event_id,
       SoroScanClient.get_event s event_id log
       = AsyncSoroScanClient.get_event a event_id log)
  ∧ (∀ page page_size,
       SoroScanClient.get_webhooks s page page_size log
       = AsyncSoroScanClient.get_webhooks a page page_size log)
  ∧ (∀ webhook_id,
       SoroScanClient.get_webhook s webhook_id log
       = AsyncSoroScanClient.get_webhook a webhook_id log)
  ∧ (∀ contract_id target_url event_type,
       SoroScanClient.create_webhook s contract_id target_url event_type log
       = AsyncSoroScanClient.create_webhook a contract_id target_url
           event_type log)
  ∧ (∀ webhook_id target_url event_type is_active,
       SoroScanClient.update_webhook s webhook_id target_url event_type
         is_active log
       = AsyncSoroScanClient.update_webhook a webhook_id target_url event_type
           is_active log)
  ∧ (∀ webhook_id,
       SoroScanClient.test_webhook s webhook_id log
       = AsyncSoroScanClient.test_webhook a webhook_id log).
Proof. cbv zeta. split_and!; intros; reflexivity. Qed.

End more_variants.
